(** * Reorder dashboard: the derive / filter / aggregate pipeline of
      [dashboard.py], embedded as executable definitions.

    Conventions of the embedding.
    - A pandas [DataFrame] read by [pd.read_excel] is a list of column labels
      (strings) and a list of rows under the default [RangeIndex]; a cell is
      missing ([NaN], [NaT], [None]), a number, a text or a calendar date.
    - Numbers are exact rationals: every finite float is one, and
      [Series.round], comparisons and [max] are exact on floats.  The sum and
      the mean of a column are not: they are pandas' floating-point
      reductions, which the aggregator takes as given and which may come out
      infinite or not a number.
    - Calendar dates and midnight timestamps are day numbers counted from
      1970-01-01.
    - Code that can raise returns a [Result]; [Unmodelled] marks inputs on
      which the behaviour of pandas, numpy or Streamlit is left outside the
      embedding (version dependent or unspecified casts). *)

From Stdlib Require Import ZArith QArith Qround Qabs List String Ascii Bool Lia.
From Stdlib Require Import DecimalString Permutation Sorted Lqa.
Import ListNotations.
Open Scope string_scope.
Open Scope list_scope.
Open Scope Z_scope.

(** ** Errors *)

Inductive Err : Type :=
| KeyError (label : string)
| TypeError
| ValueError
| ReError
| OutOfBounds
| OverflowError
| Unmodelled.

Inductive Result (A : Type) : Type :=
| Ok (a : A)
| Raise (e : Err).
Arguments Ok {A} a.
Arguments Raise {A} e.

Definition bind {A B : Type} (m : Result A) (k : A -> Result B) : Result B :=
  match m with
  | Ok a => k a
  | Raise e => Raise e
  end.

Notation "x <- m ;; k" := (bind m (fun x => k))
  (at level 61, m at next level, right associativity).

Fixpoint mapM {A B : Type} (f : A -> Result B) (l : list A) : Result (list B) :=
  match l with
  | [] => Ok []
  | a :: l' => b <- f a ;; bs <- mapM f l' ;; Ok (b :: bs)
  end.

(** ** Cells and frames *)

Inductive Cell : Type :=
| NA
| Num (q : Q)
| Str (s : string)
| Date (d : Z).

Record DataFrame : Type := mkFrame {
  columns : list string;
  rows : list (list Cell)
}.

(** Every row has one cell per column. *)
Definition wf_frame (df : DataFrame) : Prop :=
  Forall (fun r => List.length r = List.length (columns df)) (rows df).

(** [list.index], [None] standing for its [ValueError]. *)
Fixpoint index_of (name : string) (labels : list string) : option nat :=
  match labels with
  | [] => None
  | c :: labels' =>
      if String.eqb c name then Some O
      else option_map S (index_of name labels')
  end.

(** [name in data.columns] *)
Definition has_col (name : string) (df : DataFrame) : bool :=
  match index_of name (columns df) with
  | Some _ => true
  | None => false
  end.

(** [df[name]] read as a Series. *)
Definition get_col (df : DataFrame) (name : string) : Result (list Cell) :=
  match index_of name (columns df) with
  | Some i => Ok (map (fun r => nth i r NA) (rows df))
  | None => Raise (KeyError name)
  end.

Fixpoint set_nth {A : Type} (i : nat) (v : A) (l : list A) : list A :=
  match i, l with
  | _, [] => []
  | O, _ :: l' => v :: l'
  | S i', a :: l' => a :: set_nth i' v l'
  end.

(** [df[name] = vals]: an existing column is overwritten in place, a new one
    is appended as the last column. *)
Definition set_col (df : DataFrame) (name : string) (vals : list Cell) : DataFrame :=
  match index_of name (columns df) with
  | Some i =>
      mkFrame (columns df)
              (map (fun rv => set_nth i (snd rv) (fst rv)) (combine (rows df) vals))
  | None =>
      mkFrame (columns df ++ [name])
              (map (fun rv => fst rv ++ [snd rv]) (combine (rows df) vals))
  end.

(** The cell of row [i] under column [name]. *)
Definition cell (df : DataFrame) (name : string) (i : nat) : option Cell :=
  match index_of name (columns df), nth_error (rows df) i with
  | Some j, Some r => nth_error r j
  | _, _ => None
  end.

(** ** Rounding *)

(** [Series.round()] and Python's [round] on a float: nearest integer, ties
    to the even one. *)
Definition round_half_even (q : Q) : Z :=
  let f := Qfloor q in
  match Qcompare (q - inject_Z f) (1 # 2) with
  | Lt => f
  | Gt => f + 1
  | Eq => if Z.even f then f else f + 1
  end.

(** [int(x)] on a float: truncation towards zero. *)
Definition py_int (q : Q) : Z := Z.quot (Qnum q) (Z.pos (Qden q)).

(** ** Date Deriver (lines 30-50) *)

Definition DAYS_UNTIL_OUT : string := "Days Until Out".
Definition SUGGESTED_DATE : string := "Suggested Reorder Date".

Definition int64_ok (z : Z) : bool :=
  (- 2 ^ 63 <=? z) && (z <=? 2 ^ 63 - 1).

(** Whole days representable in [timedelta64[ns]] and midnights representable
    in [datetime64[ns]]: 106751 days either side of zero. *)
Definition ns_days_ok (z : Z) : bool := Z.abs z <=? 106751.

(** [.round().fillna(0).astype(int)] on one cell.  A text or date cell has no
    numeric rounding; a value beyond int64 is an unspecified cast. *)
Definition days_rounded_cell (c : Cell) : Result Z :=
  match c with
  | NA => Ok 0
  | Num q => let z := round_half_even q in
             if int64_ok z then Ok z else Raise Unmodelled
  | Str _ | Date _ => Raise Unmodelled
  end.

(** [base_date + pd.to_timedelta(days - buffer_days, unit="D")] on one cell. *)
Definition shift_date (base_date buffer_days days : Z) : Result Z :=
  let off := days - buffer_days in
  if negb (int64_ok buffer_days) then Raise OverflowError
  else if negb (int64_ok off) then Raise Unmodelled
  else if negb (ns_days_ok off) then Raise OutOfBounds
  else if negb (ns_days_ok (base_date + off)) then Raise OutOfBounds
  else Ok (base_date + off).

(** [df_copy.loc[col < today, col] = today] on one value. *)
Definition clip_to (today d : Z) : Z := if d <? today then today else d.

(** [base_date] and [today] are the two readings of [datetime.now().date()],
    lines 38 and 44. *)
Definition add_suggested_date (base_date today : Z) (data : DataFrame)
    (buffer_days : Z) : Result DataFrame :=
  if negb (has_col DAYS_UNTIL_OUT data) then Ok data
  else
    col <- get_col data DAYS_UNTIL_OUT ;;
    days_rounded <- mapM days_rounded_cell col ;;
    shifted <- mapM (shift_date base_date buffer_days) days_rounded ;;
    Ok (set_col data SUGGESTED_DATE (map (fun d => Date (clip_to today d)) shifted)).

(** ** Column helpers used by the sidebar *)

Definition CUSTOMER : string := "Customer".
Definition STATUS : string := "Status".
Definition LAST_DUE : string := "Last Due".
Definition SUGGESTED_QTY : string := "Suggested Order Qty".
Definition BLANK : string := "(Blank)".
Definition REORDER_SOON : string := "Reorder Soon".

(** [.fillna("(Blank)")] on one cell. *)
Definition fillna_blank (c : Cell) : Cell :=
  match c with
  | NA => Str BLANK
  | _ => c
  end.

(** Python's [==] on cell values. *)
Definition cell_eqb (a b : Cell) : bool :=
  match a, b with
  | Num p, Num q => Qeq_bool p q
  | Str s, Str t => String.eqb s t
  | Date d, Date e => Z.eqb d e
  | _, _ => false
  end.

(** [Series.isin(values)] on one cell. *)
Definition isin (c : Cell) (values : list Cell) : bool :=
  existsb (cell_eqb c) values.

Definition isin_str (s : string) (values : list string) : bool :=
  existsb (String.eqb s) values.

(** [Series.unique()]: the values in order of first appearance. *)
Fixpoint unique_acc (seen l : list Cell) : list Cell :=
  match l with
  | [] => []
  | c :: l' =>
      if isin c seen then unique_acc seen l'
      else c :: unique_acc (c :: seen) l'
  end.

Definition unique (l : list Cell) : list Cell := unique_acc [] l.

(** Python's [<] between two cell values; values of different kinds do not
    compare. *)
Definition cell_ltb (a b : Cell) : Result bool :=
  match a, b with
  | Num p, Num q => Ok (negb (Qle_bool q p))
  | Str s, Str t => Ok (String.ltb s t)
  | Date d, Date e => Ok (d <? e)
  | _, _ => Raise TypeError
  end.

Fixpoint insert_sorted (x : Cell) (l : list Cell) : Result (list Cell) :=
  match l with
  | [] => Ok [x]
  | y :: l' =>
      b <- cell_ltb x y ;;
      if b then Ok (x :: l) else (r <- insert_sorted x l' ;; Ok (y :: r))
  end.

(** [sorted(values)] *)
Fixpoint py_sorted (l : list Cell) : Result (list Cell) :=
  match l with
  | [] => Ok []
  | x :: l' => s <- py_sorted l' ;; insert_sorted x s
  end.

Fixpoint insert_str (x : string) (l : list string) : list string :=
  match l with
  | [] => [x]
  | y :: l' => if String.ltb x y then x :: l else y :: insert_str x l'
  end.

(** [sorted] on a list of strings *)
Definition sorted_str (l : list string) : list string :=
  fold_right insert_str [] l.

(** The numeric cells of a column, missing ones skipped; a text or date cell
    makes the reduction raise. *)
Fixpoint numeric_values (col : list Cell) : Result (list Q) :=
  match col with
  | [] => Ok []
  | NA :: col' => numeric_values col'
  | Num q :: col' => qs <- numeric_values col' ;; Ok (q :: qs)
  | _ :: _ => Raise TypeError
  end.

Definition Qmax (a b : Q) : Q := if Qle_bool a b then b else a.

(** [Series.max(skipna=True)] under [int(...)]: an all-missing column gives
    [NaN], on which [int] raises. *)
Definition max_days_of (col : list Cell) : Result Z :=
  qs <- numeric_values col ;;
  match qs with
  | [] => Raise ValueError
  | q :: qs' => Ok (py_int (fold_left Qmax qs' q))
  end.

(** [min()] and [max()] of a date column. *)
Fixpoint date_values (col : list Cell) : Result (list Z) :=
  match col with
  | [] => Ok []
  | NA :: col' => date_values col'
  | Date d :: col' => ds <- date_values col' ;; Ok (d :: ds)
  | _ :: _ => Raise TypeError
  end.

(** ** Masks (lines 68-117) *)

(** The three kinds of value the script combines with [&]: the constant
    [True], a boolean Series over the rows, and a boolean DataFrame with one
    value per cell. *)
Inductive Mask : Type :=
| MTrue
| MRows (m : list bool)
| MCells (m : list (list bool)).

Definition and_rows (a b : list bool) : list bool :=
  map (fun p => andb (fst p) (snd p)) (combine a b).

Definition and_cells (a b : list (list bool)) : list (list bool) :=
  map (fun p => and_rows (fst p) (snd p)) (combine a b).

Definition all_false (c : list (list bool)) : list (list bool) :=
  map (map (fun _ => false)) c.

(** [a & b].  Between two Series on the table's index it is the row-wise
    conjunction.  [Series & DataFrame] is handed to the DataFrame
    ([DataFrame.__rand__]), which aligns the Series' index with its own
    column labels, as every DataFrame-with-Series operator does.  The Series
    is indexed by the row numbers of the [RangeIndex], none of which is a
    column label of the report (labels are strings): the labels are united,
    the Series has no value under any report column, and a missing operand
    makes [&] false.  Under the report's columns, the only ones [df[...]]
    looks at afterwards, the result is [False] in every row. *)
Definition mask_and (a b : Mask) : Mask :=
  match a, b with
  | MTrue, m | m, MTrue => m
  | MRows x, MRows y => MRows (and_rows x y)
  | MRows _, MCells c | MCells c, MRows _ => MCells (all_false c)
  | MCells c, MCells d => MCells (and_cells c d)
  end.

Fixpoint keep {A : Type} (m : list bool) (l : list A) : list A :=
  match m, l with
  | b :: m', x :: l' => if b then x :: keep m' l' else keep m' l'
  | _, _ => []
  end.

Fixpoint where_row (c : list bool) (r : list Cell) : list Cell :=
  match r with
  | [] => []
  | v :: r' =>
      match c with
      | true :: c' => v :: where_row c' r'
      | _ :: c' => NA :: where_row c' r'
      | [] => NA :: where_row [] r'
      end
  end.

(** [DataFrame.where(cond)]: a cell is kept where [cond] holds and replaced by
    a missing value elsewhere; no row is dropped. *)
Fixpoint where_rows (c : list (list bool)) (rs : list (list Cell)) : list (list Cell) :=
  match rs with
  | [] => []
  | r :: rs' =>
      match c with
      | cr :: c' => where_row cr r :: where_rows c' rs'
      | [] => where_row [] r :: where_rows [] rs'
      end
  end.

(** [df[mask]]: a boolean Series selects rows; a boolean DataFrame is
    [df.where(mask)], which keeps the shape of [df]; and the constant [True]
    is looked up as a column label. *)
Definition select (df : DataFrame) (m : Mask) : Result DataFrame :=
  match m with
  | MTrue => Raise (KeyError "True")
  | MRows b => Ok (mkFrame (columns df) (keep b (rows df)))
  | MCells c => Ok (mkFrame (columns df) (where_rows c (rows df)))
  end.

(** What [st.date_input] hands back, as the [isinstance(date_range, list)]
    test of line 91 sees it.  For a range the widget returns a tuple, which
    is the default here; a list is what the test asks for. *)
Inductive DateInput : Type :=
| AsList (ds : list Z)
| AsTuple (ds : list Z)
| AsDate (d : Z).

(** The values the six masks are computed from. *)
Record Criteria : Type := mkCriteria {
  customers : list Cell;
  items : list string;
  status_choice : string;
  days_slider : Z;
  date_range : option DateInput;
  query : string
}.

(** The state of the sidebar widgets.  [None] is a slider or date input the
    user has not touched, which yields its default. *)
Record Widgets : Type := mkWidgets {
  sel_all_cust : bool;
  cust_picked : list Cell;
  sel_all_items : bool;
  items_picked : list string;
  status_radio : string;
  slider_moved : option Z;
  date_entered : option DateInput;
  search_text : string
}.

Definition default_widgets : Widgets :=
  mkWidgets true [] true [] "All" None None "".

Definition days_le (threshold : Z) (c : Cell) : Result bool :=
  match c with
  | NA => Ok true
  | Num q => Ok (Qle_bool q (inject_Z threshold))
  | _ => Raise TypeError
  end.

Definition date_between (a b : Z) (c : Cell) : Result bool :=
  match c with
  | NA => Ok true
  | Date d => Ok ((a <=? d) && (d <=? b))
  | _ => Raise TypeError
  end.

Definition item_col (df : DataFrame) : string :=
  if has_col "Item" df then "Item" else "Item #".

(** [st.sidebar.slider(label, 0, max_days, max_days)]: the default position is
    the upper bound, whatever its sign; a handle that was moved gives its
    position. *)
Definition slider (max_days : Z) (moved : option Z) : Result Z :=
  match moved with
  | None => Ok max_days
  | Some v => Ok v
  end.

Definition list_min (d : Z) (ds : list Z) : Z := fold_left Z.min ds d.
Definition list_max (d : Z) (ds : list Z) : Z := fold_left Z.max ds d.

Section Engine.

(** [astype(str)] / [str(v)] on a cell, and the compiled, case-insensitive
    [str.contains(query)] (a regular-expression search, [ReError] when the
    pattern does not compile): functions of pandas and [re], taken as
    given. *)
Variable astype_str : Cell -> string.
Variable str_contains : string -> Result (string -> bool).

(** line 68 *)
Definition mask_customer (df : DataFrame) (cs : list Cell) : Result (list bool) :=
  col <- get_col df CUSTOMER ;;
  Ok (map (fun c => isin (fillna_blank c) cs) col).

(** line 75 *)
Definition mask_item (df : DataFrame) (its : list string) : Result (list bool) :=
  col <- get_col df (item_col df) ;;
  Ok (map (fun c => isin_str (astype_str (fillna_blank c)) its) col).

(** line 82 *)
Definition mask_status (df : DataFrame) (choice : string) : Result Mask :=
  if String.eqb choice "All" then Ok MTrue
  else
    col <- get_col df STATUS ;;
    Ok (MRows (map (fun c => cell_eqb (fillna_blank c) (Str choice)) col)).

(** line 86 *)
Definition mask_days (df : DataFrame) (threshold : Z) : Result Mask :=
  col <- get_col df DAYS_UNTIL_OUT ;;
  m <- mapM (days_le threshold) col ;;
  Ok (MRows m).

(** lines 88-97, given the value of the date input *)
Definition mask_date (df : DataFrame) (dr : option DateInput) : Result Mask :=
  if has_col LAST_DUE df then
    match dr with
    | Some (AsList [a; b]) =>
        col <- get_col df LAST_DUE ;;
        m <- mapM (date_between a b) col ;;
        Ok (MRows m)
    | _ => Ok MTrue
    end
  else Ok MTrue.

(** lines 100-103.  The lambda maps a row to the Series of its per-cell
    [str.contains] results and is not reduced with [.any()]: [apply] with
    [axis=1] assembles those Series into a DataFrame, one boolean per cell.
    On a frame without rows the lambda is not run on any row. *)
Definition mask_search (df : DataFrame) (q : string) : Result Mask :=
  if String.eqb q "" then Ok MTrue
  else
    match rows df with
    | [] => Ok (MCells [])
    | _ =>
        m <- str_contains q ;;
        Ok (MCells (map (map (fun c => m (astype_str c))) (rows df)))
    end.

(** lines 110-117 *)
Definition combine_masks (mc : list bool) (ms : Mask) (mi : list bool)
    (md mdate msearch : Mask) : Mask :=
  mask_and (mask_and (mask_and (mask_and (mask_and (MRows mc) ms) (MRows mi)) md)
                     mdate) msearch.

(** The Filter Engine: the six masks of fixed criteria, combined and
    applied. *)
Definition apply_criteria (df : DataFrame) (cr : Criteria) : Result DataFrame :=
  mc <- mask_customer df (customers cr) ;;
  mi <- mask_item df (items cr) ;;
  ms <- mask_status df (status_choice cr) ;;
  md <- mask_days df (days_slider cr) ;;
  mdate <- mask_date df (date_range cr) ;;
  msearch <- mask_search df (query cr) ;;
  select df (combine_masks mc ms mi md mdate msearch).

(** lines 65-67 *)
Definition pick_customers (df : DataFrame) (w : Widgets) : Result (list Cell) :=
  col <- get_col df CUSTOMER ;;
  cust_values <- py_sorted (unique (map fillna_blank col)) ;;
  Ok (if sel_all_cust w then cust_values else cust_picked w).

(** lines 70-74 *)
Definition pick_items (df : DataFrame) (mc : list bool) (w : Widgets)
    : Result (list string) :=
  col <- get_col df (item_col df) ;;
  let available_items := unique (map fillna_blank (keep mc col)) in
  let item_values_str := sorted_str (map astype_str available_items) in
  Ok (if sel_all_items w then item_values_str else items_picked w).

(** lines 84-85 *)
Definition pick_days (df : DataFrame) (w : Widgets) : Result Z :=
  col <- get_col df DAYS_UNTIL_OUT ;;
  max_days <- max_days_of col ;;
  slider max_days (slider_moved w).

(** lines 88-90 *)
Definition pick_dates (df : DataFrame) (w : Widgets) : Result (option DateInput) :=
  if has_col LAST_DUE df then
    col <- get_col df LAST_DUE ;;
    ds <- date_values col ;;
    match ds with
    | [] => Raise Unmodelled
    | d :: ds' =>
        match date_entered w with
        | None => Ok (Some (AsTuple [list_min d ds'; list_max d ds']))
        | Some v => Ok (Some v)
        end
    end
  else Ok None.

(** Lines 65-117 in the order the script runs them: each widget is built
    from the table, read, and its mask computed. *)
Definition sidebar (df : DataFrame) (w : Widgets) : Result Criteria :=
  cs <- pick_customers df w ;;
  mc <- mask_customer df cs ;;
  its <- pick_items df mc w ;;
  _ <- mask_item df its ;;
  _ <- mask_status df (status_radio w) ;;
  threshold <- pick_days df w ;;
  _ <- mask_days df threshold ;;
  dr <- pick_dates df w ;;
  Ok (mkCriteria cs its (status_radio w) threshold dr (search_text w)).

Definition filtered (df : DataFrame) (w : Widgets) : Result DataFrame :=
  cr <- sidebar df w ;;
  apply_criteria df cr.

End Engine.

(** ** Aggregator (lines 122-135) *)

Record Kpis : Type := mkKpis {
  total_items : Z;
  need_reorder : Z;
  avg_days : Z;
  total_qty : Z
}.

Definition is_na (c : Cell) : bool :=
  match c with
  | NA => true
  | _ => false
  end.

(** [DataFrame.empty]: no rows or no columns. *)
Definition frame_empty (f : DataFrame) : bool :=
  match rows f, columns f with
  | [], _ | _, [] => true
  | _, _ => false
  end.

Definition count_if {A : Type} (p : A -> bool) (l : list A) : Z :=
  Z.of_nat (List.length (filter p l)).

(** A float64 result: a finite value, an infinity or not a number. *)
Inductive Float64 : Type :=
| Finite (q : Q)
| Inf
| NaN.

(** [int(round(x))] on a float: the nearest integer, a tie going to the even
    one; an infinity and a NaN make it raise. *)
Definition py_round (x : Float64) : Result Z :=
  match x with
  | Finite q => Ok (round_half_even q)
  | Inf => Raise OverflowError
  | NaN => Raise ValueError
  end.

Section Aggregator.

(** [Series.sum(skipna=True)] and [Series.mean(skipna=True)] on a column of
    numbers and missing values: the floating-point reductions of pandas,
    taken as they come.  A text or a date in the column makes them raise. *)
Variable series_sum : list Cell -> Float64.
Variable series_mean : list Cell -> Float64.

Definition kpis (f : DataFrame) : Result Kpis :=
  if frame_empty f then Ok (mkKpis 0 0 0 0)
  else
    let n := Z.of_nat (List.length (rows f)) in
    status <- get_col f STATUS ;;
    let need := count_if (fun c => cell_eqb c (Str REORDER_SOON)) status in
    days <- get_col f DAYS_UNTIL_OUT ;;
    avg <- (if forallb is_na days then Ok 0
            else _ <- numeric_values days ;; py_round (series_mean days)) ;;
    qty <- get_col f SUGGESTED_QTY ;;
    _ <- numeric_values qty ;;
    total <- py_round (series_sum qty) ;;
    Ok (mkKpis n need avg total).

End Aggregator.

(** ** Detailed records and export (lines 146-150 and 193) *)

Definition remove_at {A : Type} (j : nat) (l : list A) : list A :=
  firstn j l ++ skipn (S j) l.

Definition insert_at {A : Type} (k : nat) (x : A) (l : list A) : list A :=
  firstn k l ++ x :: skipn k l.

(** Line 149.  Python evaluates the arguments of [insert] from left to right:
    the position of Days Until Out is read before the [pop]. *)
Definition cols (labels : list string) : list string :=
  match index_of DAYS_UNTIL_OUT labels, index_of SUGGESTED_DATE labels with
  | Some i, Some j => insert_at (S i) SUGGESTED_DATE (remove_at j labels)
  | _, _ => labels
  end.

(** [filtered[cols]] *)
Definition reindex (f : DataFrame) (labels : list string) : DataFrame :=
  mkFrame labels
    (map (fun r => map (fun name =>
                          match index_of name (columns f) with
                          | Some j => nth j r NA
                          | None => NA
                          end) labels)
         (rows f)).

(** The table under "Detailed Records", [None] when the notice is shown
    instead. *)
Definition detail (f : DataFrame) : option DataFrame :=
  if frame_empty f then None else Some (reindex f (cols (columns f))).

(** A CSV document before quoting and joining: the header labels, then one
    record per row, fields in writing order. *)
Record Csv : Type := mkCsv {
  csv_header : list string;
  csv_records : list (list Cell)
}.

(** [filtered.to_csv(index=False)] *)
Definition to_csv (f : DataFrame) : Csv := mkCsv (columns f) (rows f).

(** ** The page (one run of the script) *)

Record Page : Type := mkPage {
  page_view : DataFrame;
  page_kpis : Kpis;
  page_detail : option DataFrame;
  csv_bytes : Csv;
  new_df : option DataFrame
}.

Section Script.

Variable astype_str : Cell -> string.
Variable str_contains : string -> Result (string -> bool).
Variable series_sum : list Cell -> Float64.
Variable series_mean : list Cell -> Float64.

(** [report] is the table read from [reorder_report.xlsx], [uploaded] the
    table read from the file uploader when a file is present. *)
Definition script (base_date today : Z) (report : DataFrame) (w : Widgets)
    (uploaded : option DataFrame) : Result Page :=
  df <- add_suggested_date base_date today report 5 ;;
  view <- filtered astype_str str_contains df w ;;
  k <- kpis series_sum series_mean view ;;
  Ok (mkPage view k (detail view) (to_csv view) uploaded).

End Script.

(** ** A renderer, a matcher and float64 reductions to run the definitions
       on sample tables *)

Definition lower_ascii (c : ascii) : ascii :=
  let n := nat_of_ascii c in
  if ((65 <=? n) && (n <=? 90))%nat then ascii_of_nat (n + 32) else c.

Fixpoint lower (s : string) : string :=
  match s with
  | EmptyString => EmptyString
  | String c s' => String (lower_ascii c) (lower s')
  end.

Fixpoint contains (pat s : string) : bool :=
  prefix pat s ||
  match s with
  | EmptyString => false
  | String _ s' => contains pat s'
  end.

Definition is_meta (c : ascii) : bool :=
  existsb (Ascii.eqb c) (list_ascii_of_string ".^$*+?{}[]\|()").

(** A pattern without regular-expression metacharacters searches for itself;
    other patterns are left out. *)
Definition literal_search (pat : string) : Result (string -> bool) :=
  if existsb is_meta (list_ascii_of_string pat) then Raise Unmodelled
  else Ok (fun s => contains (lower pat) (lower s)).

Definition string_of_Z (z : Z) : string := NilZero.string_of_int (Z.to_int z).

(** Text renders as itself and a missing value as [nan]; numbers and dates
    get a schematic rendering. *)
Definition plain_str (c : Cell) : string :=
  match c with
  | NA => "nan"
  | Str s => s
  | Num q => string_of_Z (Qnum q) ++ "/" ++ string_of_Z (Z.pos (Qden q))
  | Date d => "day " ++ string_of_Z d
  end.

(** float64 arithmetic on rationals. *)
Definition Qpow2 (u : Z) : Q :=
  if 0 <=? u then inject_Z (2 ^ u) else 1 # Z.to_pos (2 ^ (- u)).

(** The binary exponent [e] of a non-zero rational: [2^e <= |q| < 2^(e+1)]. *)
Definition binary_exponent (q : Q) : Z :=
  let e0 := Z.log2 (Z.abs (Qnum q)) - Z.log2 (Zpos (Qden q)) in
  if Qle_bool (Qpow2 e0) (Qabs q) then e0 else e0 - 1.

(** The float64 nearest to a real (IEEE 754 binary64, ties to the even
    significand): 53 significant bits, a spacing never below [2^-1074], an
    infinity from [2^1024] on. *)
Definition fl64 (q : Q) : Float64 :=
  if Qeq_bool q 0 then Finite 0
  else
    let u := Z.max (binary_exponent q - 52) (- 1074) in
    let r := Qred (inject_Z (round_half_even (q / Qpow2 u)) * Qpow2 u) in
    if Qle_bool (Qpow2 1024) (Qabs r) then Inf else Finite r.

Definition add64 (x : Float64) (q : Q) : Float64 :=
  match x with
  | Finite a => fl64 (a + q)
  | _ => x
  end.

(** The float64 sum of a column taken from the top down, missing values
    skipped: the sum pandas gives on a short column such as those of the
    sample tables. *)
Definition float_sum (col : list Cell) : Float64 :=
  fold_left (fun acc c => match c with Num q => add64 acc q | _ => acc end)
            col (Finite 0).

(** The float64 mean: the sum divided by the number of values present, and
    not a number when none is. *)
Definition float_mean (col : list Cell) : Float64 :=
  let n := Z.of_nat (List.length (filter (fun c => negb (is_na c)) col)) in
  if n =? 0 then NaN
  else match float_sum col with
       | Finite s => fl64 (s / inject_Z n)
       | x => x
       end.

(** ** Notions used to state the properties *)

(** The Days Until Out value of a cell as the deriver uses it: the number
    rounded to the nearest integer, a missing value counted as 0. *)
Definition rounded_or_zero (c : Cell) : Z :=
  match c with
  | Num q => round_half_even q
  | _ => 0
  end.

(** A Days Until Out cell on which the derivation stays inside 64-bit
    nanosecond arithmetic. *)
Definition derivable (base_date buffer_days : Z) (c : Cell) : Prop :=
  (c = NA \/ exists q, c = Num q) /\
  int64_ok (rounded_or_zero c) = true /\
  int64_ok buffer_days = true /\
  Z.abs (rounded_or_zero c - buffer_days) <= 106751 /\
  Z.abs (base_date + (rounded_or_zero c - buffer_days)) <= 106751.

(** The rows of [df] picked by a boolean Series. *)
Definition take_rows (m : list bool) (df : DataFrame) : DataFrame :=
  mkFrame (columns df) (keep m (rows df)).

(** [df] with every cell replaced by a missing value. *)
Definition blank_frame (df : DataFrame) : DataFrame :=
  mkFrame (columns df) (map (map (fun _ => NA)) (rows df)).

(** A mask read on the rows picked by [m]. *)
Definition restrict (m : list bool) (M : Mask) : Mask :=
  match M with
  | MTrue => MTrue
  | MRows b => MRows (keep m b)
  | MCells c => MCells (keep m c)
  end.

(** The constant [True] or a boolean Series, not a DataFrame. *)
Definition rowish (M : Mask) : Prop :=
  match M with
  | MCells _ => False
  | _ => True
  end.

(** The non-missing numbers of a column. *)
Definition non_missing_numbers (col : list Cell) : list Q :=
  flat_map (fun c => match c with Num q => [q] | _ => [] end) col.

(** The exact sum of a list of numbers. *)
Definition Qsum (qs : list Q) : Q := fold_right Qplus (0 # 1) qs.

(** [z] is an integer nearest to [q]. *)
Definition nearest_integer (q : Q) (z : Z) : Prop :=
  (Qabs (q - inject_Z z) <= 1 # 2)%Q.

(** [z] is the integer nearest to [q], and the even one of the two when [q]
    lies halfway between them. *)
Definition rounds_to (q : Q) (z : Z) : Prop :=
  (Qabs (q - inject_Z z) <= 1 # 2)%Q /\
  ((Qabs (q - inject_Z z) == 1 # 2)%Q -> Z.even z = true).


(** The row's Status cell is exactly the text [label]. *)
Definition status_is (labels : list string) (label : string) (r : list Cell) : bool :=
  match index_of STATUS labels with
  | Some j => match nth j r NA with
              | Str s => String.eqb s label
              | _ => false
              end
  | None => false
  end.

(** The cells under a column, top to bottom; none when the label is absent. *)
Definition column_values (f : DataFrame) (name : string) : list Cell :=
  match index_of name (columns f) with
  | Some j => map (fun r => nth j r NA) (rows f)
  | None => []
  end.

(** [b] comes immediately after [a] in [l]. *)
Fixpoint directly_follows (a b : string) (l : list string) : bool :=
  match l with
  | x :: (y :: _) as l' =>
      (String.eqb x a && String.eqb y b) || directly_follows a b l'
  | _ => false
  end.

(** ** Sample tables *)

(** The two-row table of the worked example: customer A runs out in 2 days,
    customer B in 30. *)
Definition sample_report : DataFrame :=
  mkFrame ["Customer"; "Item"; "Status"; "Days Until Out"; "Suggested Order Qty"]
    [[Str "A"; Str "X1"; Str "Reorder Soon"; Num (2 # 1); Num (10 # 1)];
     [Str "B"; Str "X2"; Str "OK"; Num (30 # 1); Num (5 # 1)]].

(** The same table after the deriver has run on day 20000 with a buffer of 5
    days. *)
Definition sample_derived : DataFrame :=
  mkFrame ["Customer"; "Item"; "Status"; "Days Until Out"; "Suggested Order Qty";
           "Suggested Reorder Date"]
    [[Str "A"; Str "X1"; Str "Reorder Soon"; Num (2 # 1); Num (10 # 1); Date 20000];
     [Str "B"; Str "X2"; Str "OK"; Num (30 # 1); Num (5 # 1); Date 20025]].

(** Customer B runs out in 30.5 days. *)
Definition fractional_report : DataFrame :=
  mkFrame ["Customer"; "Item"; "Status"; "Days Until Out"; "Suggested Order Qty"]
    [[Str "A"; Str "X1"; Str "Reorder Soon"; Num (2 # 1); Num (10 # 1)];
     [Str "B"; Str "X2"; Str "OK"; Num (61 # 2); Num (5 # 1)]].



(** The float64 values of the literals 0.1 and 0.2. *)
Definition float_01 : Q := 3602879701896397 # 36028797018963968.
Definition float_02 : Q := 3602879701896397 # 18014398509481984.

(** Suggested Order Qty 0.1, 0.2 and 0.2, as float64 holds them. *)
Definition tenths_report : DataFrame :=
  mkFrame ["Customer"; "Item"; "Status"; "Days Until Out"; "Suggested Order Qty"]
    [[Str "A"; Str "X1"; Str "Reorder Soon"; Num (5 # 2); Num float_01];
     [Str "B"; Str "X2"; Str "OK"; Num (30 # 1); Num float_02];
     [Str "C"; Str "X3"; Str "OK"; Num (7 # 1); Num float_02]].

Definition tenths_derived : DataFrame :=
  mkFrame ["Customer"; "Item"; "Status"; "Days Until Out"; "Suggested Order Qty";
           "Suggested Reorder Date"]
    [[Str "A"; Str "X1"; Str "Reorder Soon"; Num (5 # 2); Num float_01; Date 20000];
     [Str "B"; Str "X2"; Str "OK"; Num (30 # 1); Num float_02; Date 20025];
     [Str "C"; Str "X3"; Str "OK"; Num (7 # 1); Num float_02; Date 20002]].

(** A report without the Days Until Out column. *)
Definition no_days_report : DataFrame :=
  mkFrame ["Customer"; "Item"; "Status"; "Suggested Order Qty"]
    [[Str "A"; Str "X1"; Str "Reorder Soon"; Num (10 # 1)];
     [Str "B"; Str "X2"; Str "OK"; Num (5 # 1)]].

Definition status_criteria : Criteria :=
  mkCriteria [Str "A"; Str "B"] ["X1"; "X2"] "Reorder Soon" 30 None "".

Definition search_widgets (q : string) : Widgets :=
  mkWidgets true [] true [] "All" None None q.

(** ** Row-wise reading of the criteria *)

(** The cell of a row under a label, missing when the label is absent. *)
Definition at_label (labels : list string) (name : string) (r : list Cell) : Cell :=
  match index_of name labels with
  | Some j => nth j r NA
  | None => NA
  end.

Definition has_label (name : string) (labels : list string) : bool :=
  match index_of name labels with
  | Some _ => true
  | None => false
  end.

Definition item_label (labels : list string) : string :=
  if has_label "Item" labels then "Item" else "Item #".

Definition passes_days (threshold : Z) (c : Cell) : bool :=
  match c with
  | NA => true
  | Num q => Qle_bool q (inject_Z threshold)
  | _ => false
  end.

Definition passes_dates (dr : option DateInput) (c : Cell) : bool :=
  match dr with
  | Some (AsList [a; b]) =>
      match c with
      | NA => true
      | Date d => (a <=? d) && (d <=? b)
      | _ => false
      end
  | _ => true
  end.

(** The six tests on one row of a table with the given labels: customer
    among the selected, status equal to the choice unless the choice is All,
    item among the selected, Days Until Out missing or within the threshold,
    Last Due missing or within a range given as a list. *)
Definition row_passes (astype_str : Cell -> string) (labels : list string)
    (cr : Criteria) (r : list Cell) : bool :=
  isin (fillna_blank (at_label labels CUSTOMER r)) (customers cr)
  && (String.eqb (status_choice cr) "All"
      || cell_eqb (fillna_blank (at_label labels STATUS r)) (Str (status_choice cr)))
  && isin_str (astype_str (fillna_blank
                 (at_label labels (item_label labels) r)))
              (items cr)
  && passes_days (days_slider cr) (at_label labels DAYS_UNTIL_OUT r)
  && (negb (has_label LAST_DUE labels)
      || passes_dates (date_range cr) (at_label labels LAST_DUE r)).

(** A mask that is [True] or a Series reads as a test on the rows [l]. *)
Definition reads_as {A : Type} (l : list A) (M : Mask) (P : A -> bool) : Prop :=
  (M = MTrue /\ forall a, P a = true) \/ M = MRows (map P l).

(** The criteria [cr] with the slider moved to [t]. *)
Definition with_slider (cr : Criteria) (t : Z) : Criteria :=
  mkCriteria (customers cr) (items cr) (status_choice cr) t (date_range cr) (query cr).

(** ** Row highlighting (lines 140-143 and 150) *)

Definition HIGHLIGHT : string := "background-color: #fff9e6; color:black;".

(** [highlight_status(row)], the row given by the table's labels and its
    cells: one style per cell. *)
Definition highlight_status (labels : list string) (row : list Cell)
    : Result (list string) :=
  match index_of STATUS labels with
  | None => Raise (KeyError STATUS)
  | Some j =>
      if cell_eqb (nth j row NA) (Str REORDER_SOON)
      then Ok (map (fun _ => HIGHLIGHT) row)
      else Ok (map (fun _ => "") row)
  end.

(** [.style.apply(highlight_status, axis=1)] on the table shown. *)
Definition styled (d : DataFrame) : Result (list (list string)) :=
  mapM (highlight_status (columns d)) (rows d).

(** A row of styles that carries the highlight. *)
Definition is_highlighted (styles : list string) : bool :=
  existsb (String.eqb HIGHLIGHT) styles.

(** ** Widget states that differ in one input *)

Definition with_date (w : Widgets) (d : option DateInput) : Widgets :=
  mkWidgets (sel_all_cust w) (cust_picked w) (sel_all_items w) (items_picked w)
            (status_radio w) (slider_moved w) d (search_text w).

Definition with_picks (w : Widgets) (cs : list Cell) (its : list string) : Widgets :=
  mkWidgets (sel_all_cust w) cs (sel_all_items w) its
            (status_radio w) (slider_moved w) (date_entered w) (search_text w).

(** The one shape of date input that line 91 lets through to the filter. *)
Definition is_two_date_list (d : option DateInput) : bool :=
  match d with
  | Some (AsList [_; _]) => true
  | _ => false
  end.

(** ** Monthly trend (lines 177-186) *)

Definition b2z (b : bool) : Z := if b then 1 else 0.

(** One more row for the group of month [m], groups kept in ascending order
    of month as [groupby] sorts its keys. *)
Fixpoint add_to_group (m : Z) (hit : bool) (groups : list (Z * Z)) : list (Z * Z) :=
  match groups with
  | [] => [(m, b2z hit)]
  | (m', n) :: rest =>
      if m <? m' then (m, b2z hit) :: groups
      else if m =? m' then (m', n + b2z hit) :: rest
      else (m', n) :: add_to_group m hit rest
  end.

(** A column of [datetime64] dtype holds dates and missing values only. *)
Definition is_datetime_col (col : list Cell) : bool :=
  forallb (fun c => match c with NA | Date _ => true | _ => false end) col.

Section Trend.

(** [dt.to_period("M")]: the month a day falls in, as the ordinal of the
    period; a function of pandas taken as given. *)
Variable month_of : Z -> Z.

(** [groupby("month")["Status"].apply(lambda x: (x == "Reorder Soon").sum())]
    on the Last Due and Status columns: a row without Last Due belongs to no
    group. *)
Fixpoint group_counts (due status : list Cell) : list (Z * Z) :=
  match due, status with
  | Date d :: due', s :: status' =>
      add_to_group (month_of d) (cell_eqb s (Str REORDER_SOON))
                   (group_counts due' status')
  | _ :: due', _ :: status' => group_counts due' status'
  | _, _ => []
  end.

(** The points of the line chart, month and number of rows needing reorder,
    [None] when no chart is drawn.  A Last Due column without any date is
    left out: whether the chart code runs on it depends on the dtype the
    column was read with. *)
Definition trend (f : DataFrame) : Result (option (list (Z * Z))) :=
  if frame_empty f then Ok None
  else if negb (has_col LAST_DUE f) then Ok None
  else
    due <- get_col f LAST_DUE ;;
    if forallb is_na due then Raise Unmodelled
    else if negb (is_datetime_col due) then Ok None
    else
      status <- get_col f STATUS ;;
      match group_counts due status with
      | [] => Ok None
      | g => Ok (Some g)
      end.

End Trend.

Definition is_date (c : Cell) : bool :=
  match c with
  | Date _ => true
  | _ => false
  end.

(** The sum of the counts of a trend. *)
Definition total_count (g : list (Z * Z)) : Z :=
  fold_right (fun p acc => snd p + acc) 0 g.

(** ** Further sample data *)

(** The derived sample table with a Last Due column; the last row has no
    Last Due. *)
Definition dated_view : DataFrame :=
  mkFrame ["Customer"; "Item"; "Status"; "Days Until Out"; "Suggested Order Qty";
           "Last Due"]
    [[Str "A"; Str "X1"; Str "Reorder Soon"; Num (2 # 1); Num (10 # 1); Date 19990];
     [Str "B"; Str "X2"; Str "OK"; Num (30 # 1); Num (5 # 1); Date 19995];
     [Str "C"; Str "X3"; Str "Reorder Soon"; Num (40 # 1); Num (7 # 1); Date 20030];
     [Str "D"; Str "X4"; Str "Reorder Soon"; Num (1 # 1); Num (1 # 1); NA]].

(** Periods of thirty days, to run the trend on sample data. *)
Definition thirty_day_period (d : Z) : Z := d / 30.

Definition status_widgets (s : string) : Widgets :=
  mkWidgets true [] true [] s None None "".

Definition no_customer_widgets : Widgets :=
  mkWidgets false [] true [] "All" None None "".

Definition all_criteria : Criteria :=
  mkCriteria [Str "A"; Str "B"] ["X1"; "X2"] "All" 30 None "".

Definition sample_page : Page :=
  mkPage sample_derived (mkKpis 2 1 16 15) (detail sample_derived)
         (to_csv sample_derived) None.

(** * Properties *)

(** ** The error monad and list helpers *)

Lemma bind_ok {A B : Type} (m : Result A) (k : A -> Result B) (b : B) :
  bind m k = Ok b -> exists a, m = Ok a /\ k a = Ok b.
Proof.
  destruct m as [a|e]; simpl; intros H; [exists a; auto | discriminate].
Qed.

Ltac inv_bind H :=
  let a := fresh "v" in
  let Ha := fresh "Hv" in
  apply bind_ok in H; destruct H as (a & Ha & H).

Lemma mapM_length {A B : Type} (f : A -> Result B) (l : list A) (l' : list B) :
  mapM f l = Ok l' -> List.length l' = List.length l.
Proof.
  revert l'; induction l as [|a l IH]; simpl; intros l' H.
  - inversion H; reflexivity.
  - inv_bind H. inv_bind H. inversion H; subst. simpl. f_equal. eauto.
Qed.

Lemma mapM_nth {A B : Type} (f : A -> Result B) (l : list A) (l' : list B) :
  mapM f l = Ok l' ->
  forall i a, nth_error l i = Some a ->
    exists b, nth_error l' i = Some b /\ f a = Ok b.
Proof.
  revert l'; induction l as [|x l IH]; simpl; intros l' H i a Hi.
  - destruct i; discriminate.
  - inv_bind H. inv_bind H. inversion H; subst.
    destruct i as [|i]; simpl in *.
    + inversion Hi; subst. eauto.
    + eapply IH; eauto.
Qed.

Lemma index_of_lt name labels j :
  index_of name labels = Some j -> (j < List.length labels)%nat.
Proof.
  revert j; induction labels as [|c labels IH]; simpl; intros j H; [discriminate|].
  destruct (String.eqb c name).
  - inversion H; lia.
  - destruct (index_of name labels) as [k|]; simpl in H; [|discriminate].
    inversion H; subst. specialize (IH k eq_refl). lia.
Qed.

Lemma index_of_nth name labels j :
  index_of name labels = Some j -> nth_error labels j = Some name.
Proof.
  revert j; induction labels as [|c labels IH]; simpl; intros j H; [discriminate|].
  destruct (String.eqb c name) eqn:E.
  - inversion H; subst. apply String.eqb_eq in E. subst. reflexivity.
  - destruct (index_of name labels) as [k|]; simpl in H; [|discriminate].
    inversion H; subst. simpl. auto.
Qed.

Lemma index_of_app_new name labels :
  index_of name labels = None ->
  index_of name (labels ++ [name]) = Some (List.length labels).
Proof.
  induction labels as [|c labels IH]; simpl; intros H.
  - rewrite String.eqb_refl. reflexivity.
  - destruct (String.eqb c name); [discriminate|].
    destruct (index_of name labels); [discriminate|].
    rewrite IH by reflexivity. reflexivity.
Qed.

Lemma set_nth_same {A : Type} (j : nat) (v : A) (l : list A) :
  (j < List.length l)%nat -> nth_error (set_nth j v l) j = Some v.
Proof.
  revert l; induction j as [|j IH]; intros [|a l] H; simpl in *; try lia; auto.
  apply IH. lia.
Qed.

Lemma nth_error_snoc {A : Type} (l : list A) (v : A) :
  nth_error (l ++ [v]) (List.length l) = Some v.
Proof.
  induction l; simpl; auto.
Qed.

Lemma nth_error_combine {A B : Type} (l : list A) (l' : list B) i a b :
  nth_error l i = Some a -> nth_error l' i = Some b ->
  nth_error (combine l l') i = Some (a, b).
Proof.
  revert l' i; induction l as [|x l IH]; intros [|y l'] [|i]; simpl;
    intros H1 H2; try discriminate.
  - inversion H1; inversion H2; reflexivity.
  - auto.
Qed.

(** ** Frames *)

Lemma wf_row df i r :
  wf_frame df -> nth_error (rows df) i = Some r ->
  List.length r = List.length (columns df).
Proof.
  intros W H. unfold wf_frame in W. rewrite Forall_forall in W.
  apply W. eapply nth_error_In; eauto.
Qed.

(** Writing a column and reading it back. *)
Lemma set_col_cell df name vals i v :
  wf_frame df ->
  (i < List.length (rows df))%nat ->
  nth_error vals i = Some v ->
  cell (set_col df name vals) name i = Some v.
Proof.
  intros W Hi Hv.
  destruct (nth_error (rows df) i) as [r|] eqn:Hr;
    [| apply nth_error_None in Hr; lia].
  pose proof (wf_row _ _ _ W Hr) as Hlen.
  unfold set_col, cell.
  destruct (index_of name (columns df)) as [j|] eqn:Hj; simpl.
  - rewrite Hj. rewrite nth_error_map.
    rewrite (nth_error_combine _ _ _ _ _ Hr Hv). simpl.
    apply set_nth_same. rewrite Hlen. eapply index_of_lt; eauto.
  - rewrite (index_of_app_new _ _ Hj). rewrite nth_error_map.
    rewrite (nth_error_combine _ _ _ _ _ Hr Hv). simpl.
    rewrite <- Hlen. apply nth_error_snoc.
Qed.

Lemma set_col_rows df name vals :
  List.length vals = List.length (rows df) ->
  List.length (rows (set_col df name vals)) = List.length (rows df).
Proof.
  intros H. unfold set_col.
  destruct (index_of name (columns df)); simpl;
    rewrite length_map, length_combine; lia.
Qed.

Lemma get_col_cell df name col i c :
  wf_frame df ->
  get_col df name = Ok col ->
  cell df name i = Some c ->
  nth_error col i = Some c.
Proof.
  unfold get_col, cell. intros W H Hc.
  destruct (index_of name (columns df)) as [j|] eqn:Hj; [|discriminate].
  inversion H; subst; clear H.
  destruct (nth_error (rows df) i) as [r|] eqn:Hr; [|discriminate].
  rewrite nth_error_map, Hr. simpl. f_equal.
  apply nth_error_nth. exact Hc.
Qed.

Lemma get_col_length df name col :
  get_col df name = Ok col -> List.length col = List.length (rows df).
Proof.
  unfold get_col. destruct (index_of name (columns df)); [|discriminate].
  intros H; inversion H. apply length_map.
Qed.

(** ** Rounding *)

(** [round_half_even] returns an integer nearest to its argument. *)
Lemma round_half_even_nearest (q : Q) :
  (Qabs (q - inject_Z (round_half_even q)) <= 1 # 2)%Q.
Proof.
  pose proof (Qfloor_le q) as Hlo.
  pose proof (Qlt_floor q) as Hhi.
  rewrite inject_Z_plus in Hhi. change (inject_Z 1) with 1%Q in Hhi.
  apply Qabs_Qle_condition.
  unfold round_half_even.
  destruct (Qcompare_spec (q - inject_Z (Qfloor q)) (1 # 2)) as [E|L|G].
  - destruct (Z.even (Qfloor q));
      [| rewrite inject_Z_plus; change (inject_Z 1) with 1%Q]; lra.
  - lra.
  - rewrite inject_Z_plus. change (inject_Z 1) with 1%Q. lra.
Qed.

Lemma round_half_even_integer (z : Z) : round_half_even (inject_Z z) = z.
Proof.
  unfold round_half_even. rewrite Qfloor_Z.
  destruct (Qcompare_spec (inject_Z z - inject_Z z) (1 # 2)) as [E|L|G];
    [lra | reflexivity | lra].
Qed.

Lemma Qabs_half_cases (x : Q) :
  (Qabs x == 1 # 2)%Q -> (x == 1 # 2)%Q \/ (x == - (1 # 2))%Q.
Proof.
  intros H. destruct (Qlt_le_dec x 0) as [L|L].
  - right. rewrite (Qabs_neg x) in H by lra. lra.
  - left. rewrite (Qabs_pos x) in H by assumption. exact H.
Qed.

(** On a tie [round_half_even] returns the even neighbour. *)
Lemma round_half_even_tie (q : Q) :
  (Qabs (q - inject_Z (round_half_even q)) == 1 # 2)%Q ->
  Z.even (round_half_even q) = true.
Proof.
  pose proof (Qfloor_le q) as Hlo.
  pose proof (Qlt_floor q) as Hhi.
  rewrite inject_Z_plus in Hhi. change (inject_Z 1) with 1%Q in Hhi.
  unfold round_half_even.
  destruct (Qcompare_spec (q - inject_Z (Qfloor q)) (1 # 2)) as [E|L|G].
  - destruct (Z.even (Qfloor q)) eqn:Ev; intros _; [exact Ev|].
    rewrite Z.even_add, Ev. reflexivity.
  - intros H. apply Qabs_half_cases in H. destruct H; lra.
  - rewrite inject_Z_plus. change (inject_Z 1) with 1%Q.
    intros H. apply Qabs_half_cases in H. destruct H; lra.
Qed.

Lemma round_half_even_rounds_to (q : Q) : rounds_to q (round_half_even q).
Proof.
  split; [apply round_half_even_nearest | apply round_half_even_tie].
Qed.



(** ** Date Deriver *)

Lemma clip_to_ge today d : today <= clip_to today d.
Proof. unfold clip_to. destruct (Z.ltb_spec d today); lia. Qed.


Lemma shift_date_ok base buffer days d :
  shift_date base buffer days = Ok d -> d = base + (days - buffer).
Proof.
  unfold shift_date.
  repeat match goal with |- context [if ?b then _ else _] => destruct b end;
    intros H; inversion H; reflexivity.
Qed.

Lemma days_rounded_cell_ok c z :
  days_rounded_cell c = Ok z -> z = rounded_or_zero c.
Proof.
  destruct c; simpl; intros H; try discriminate.
  - inversion H; reflexivity.
  - destruct (int64_ok _); inversion H; reflexivity.
Qed.

(** What the derived column holds in row [i], in terms of the row's Days
    Until Out cell. *)
Lemma add_suggested_date_cell base today data buffer r i c :
  wf_frame data ->
  add_suggested_date base today data buffer = Ok r ->
  cell data DAYS_UNTIL_OUT i = Some c ->
  cell r SUGGESTED_DATE i =
    Some (Date (clip_to today (base + (rounded_or_zero c - buffer)))).
Proof.
  intros W H Hc. unfold add_suggested_date in H.
  destruct (has_col DAYS_UNTIL_OUT data) eqn:Hh; simpl in H.
  2:{ unfold has_col in Hh. unfold cell in Hc.
      destruct (index_of DAYS_UNTIL_OUT (columns data)); discriminate. }
  inv_bind H. inv_bind H. inv_bind H. inversion H; subst; clear H.
  pose proof (get_col_cell _ _ _ _ _ W Hv Hc) as Hn.
  destruct (mapM_nth _ _ _ Hv0 _ _ Hn) as (z & Hz & Ez).
  destruct (mapM_nth _ _ _ Hv1 _ _ Hz) as (d & Hd & Ed).
  apply days_rounded_cell_ok in Ez. apply shift_date_ok in Ed. subst.
  apply set_col_cell; auto.
  - unfold cell in Hc.
    destruct (index_of DAYS_UNTIL_OUT (columns data)); [|discriminate].
    destruct (nth_error (rows data) i) eqn:Hr; [|discriminate].
    apply nth_error_Some. congruence.
  - rewrite nth_error_map, Hd. reflexivity.
Qed.

Lemma add_suggested_date_rows base today data buffer r :
  add_suggested_date base today data buffer = Ok r ->
  List.length (rows r) = List.length (rows data).
Proof.
  unfold add_suggested_date.
  destruct (has_col DAYS_UNTIL_OUT data); simpl; intros H.
  - inv_bind H. inv_bind H. inv_bind H. inversion H; subst; clear H.
    apply set_col_rows. rewrite length_map.
    rewrite (mapM_length _ _ _ Hv1), (mapM_length _ _ _ Hv0).
    eapply get_col_length; eauto.
  - inversion H; reflexivity.
Qed.

Lemma cell_defined df name i :
  wf_frame df -> has_col name df = true ->
  (i < List.length (rows df))%nat ->
  exists c, cell df name i = Some c.
Proof.
  intros W Hh Hi. unfold has_col in Hh. unfold cell.
  destruct (index_of name (columns df)) as [j|] eqn:Hj; [|discriminate].
  destruct (nth_error (rows df) i) as [r|] eqn:Hr;
    [| apply nth_error_None in Hr; lia].
  destruct (nth_error r j) as [c|] eqn:Hc; [eauto|].
  apply nth_error_None in Hc. apply index_of_lt in Hj.
  rewrite (wf_row _ _ _ W Hr) in Hc. lia.
Qed.

(** Without a Days Until Out column the table is handed back as it is. *)
Lemma add_suggested_date_absent base today data buffer :
  has_col DAYS_UNTIL_OUT data = false ->
  add_suggested_date base today data buffer = Ok data.
Proof. unfold add_suggested_date. intros ->. reflexivity. Qed.

Lemma mapM_total {A B : Type} (f : A -> Result B) (P : A -> Prop) (l : list A) :
  (forall a, P a -> exists b, f a = Ok b) ->
  Forall P l -> exists l', mapM f l = Ok l'.
Proof.
  intros Hf. induction 1 as [|a l Ha _ IH]; simpl.
  - eauto.
  - destruct (Hf a Ha) as (b & ->). destruct IH as (l' & ->). simpl. eauto.
Qed.

(** The deriver returns a table whenever the Days Until Out column holds
    numbers or missing values within range. *)
Lemma add_suggested_date_returns base today data buffer col :
  get_col data DAYS_UNTIL_OUT = Ok col ->
  Forall (derivable base buffer) col ->
  exists r, add_suggested_date base today data buffer = Ok r.
Proof.
  intros Hc Hall. unfold add_suggested_date.
  destruct (has_col DAYS_UNTIL_OUT data); simpl; [|eauto].
  rewrite Hc. simpl.
  assert (exists zs, mapM days_rounded_cell col = Ok zs /\
                     Forall (fun z => exists d, shift_date base buffer z = Ok d) zs)
    as (zs & -> & Hzs).
  { clear Hc. induction Hall as [|c l Hd _ IH]; simpl.
    - eauto.
    - destruct IH as (zs & -> & Hzs).
      destruct Hd as (Hk & H1 & H2 & H3 & H4).
      assert (days_rounded_cell c = Ok (rounded_or_zero c)) as ->.
      { destruct Hk as [->|(q & ->)]; simpl; auto.
        simpl in H1. rewrite H1. reflexivity. }
      simpl. eexists; split; [reflexivity|].
      constructor; auto.
      unfold shift_date. rewrite H2. simpl.
      assert (int64_ok (rounded_or_zero c - buffer) = true) as ->.
      { unfold int64_ok. apply andb_true_intro; split; apply Z.leb_le; lia. }
      unfold ns_days_ok.
      rewrite (proj2 (Z.leb_le _ _) H3), (proj2 (Z.leb_le _ _) H4).
      simpl. eauto. }
  simpl.
  destruct (mapM_total _ _ _ (fun z H => H) Hzs) as (ds & ->).
  simpl. eauto.
Qed.

(** C1. Once [add_suggested_date] has derived the column, every row holds a
    calendar date under Suggested Reorder Date, never a missing value: the
    later of [today] (the date read when the column is clipped) and the
    shifted date, a missing Days Until Out counting as 0.  It is therefore
    never before [today], for every table and every [buffer_days]. *)
Theorem suggested_date_never_null_nor_past base today data buffer r i :
  wf_frame data ->
  has_col DAYS_UNTIL_OUT data = true ->
  add_suggested_date base today data buffer = Ok r ->
  (i < List.length (rows r))%nat ->
  exists c d,
    cell data DAYS_UNTIL_OUT i = Some c /\
    cell r SUGGESTED_DATE i = Some (Date d) /\
    d = Z.max today (base + (rounded_or_zero c - buffer)) /\
    today <= d.
Proof.
  intros W Hh H Hi.
  rewrite (add_suggested_date_rows _ _ _ _ _ H) in Hi.
  destruct (cell_defined _ _ _ W Hh Hi) as (c & Hc).
  exists c. eexists. split; [exact Hc|]. split.
  - eapply add_suggested_date_cell; eauto.
  - unfold clip_to. destruct (Z.ltb_spec (base + (rounded_or_zero c - buffer)) today); lia.
Qed.



(** ** The algebra of masks *)

Lemma and_rows_comm a b : and_rows a b = and_rows b a.
Proof.
  unfold and_rows. revert b; induction a as [|x a IH]; intros [|y b]; simpl; auto.
  rewrite andb_comm. f_equal. apply IH.
Qed.

Lemma and_rows_assoc a b c : and_rows (and_rows a b) c = and_rows a (and_rows b c).
Proof.
  unfold and_rows. revert b c; induction a as [|x a IH]; intros [|y b] [|z c];
    simpl; auto.
  rewrite andb_assoc. f_equal. apply IH.
Qed.

Lemma and_cells_comm c d : and_cells c d = and_cells d c.
Proof.
  unfold and_cells. revert d; induction c as [|x c IH]; intros [|y d]; simpl; auto.
  rewrite and_rows_comm. f_equal. apply IH.
Qed.

Lemma and_cells_assoc c d e :
  and_cells (and_cells c d) e = and_cells c (and_cells d e).
Proof.
  unfold and_cells. revert d e; induction c as [|x c IH]; intros [|y d] [|z e];
    simpl; auto.
  rewrite and_rows_assoc. f_equal. apply IH.
Qed.

Lemma all_false_idem c : all_false (all_false c) = all_false c.
Proof.
  unfold all_false. rewrite map_map. apply map_ext. intros r. apply map_map.
Qed.

Lemma and_rows_false_l a b :
  and_rows (map (fun _ => false) a) b = map (fun _ => false) (and_rows a b).
Proof.
  unfold and_rows. revert b; induction a as [|x a IH]; intros [|y b]; simpl; auto.
  f_equal. apply IH.
Qed.

Lemma and_cells_false_l c d : and_cells (all_false c) d = all_false (and_cells c d).
Proof.
  unfold and_cells, all_false.
  revert d; induction c as [|x c IH]; intros [|y d]; simpl; auto.
  rewrite and_rows_false_l. f_equal. apply IH.
Qed.

Lemma and_cells_false_r c d : and_cells c (all_false d) = all_false (and_cells c d).
Proof.
  rewrite and_cells_comm, and_cells_false_l. f_equal. apply and_cells_comm.
Qed.

Lemma mask_and_true_l m : mask_and MTrue m = m.
Proof. destruct m; reflexivity. Qed.

Lemma mask_and_true_r m : mask_and m MTrue = m.
Proof. destruct m; reflexivity. Qed.

Lemma mask_and_comm a b : mask_and a b = mask_and b a.
Proof.
  destruct a, b; simpl; auto.
  - f_equal. apply and_rows_comm.
  - f_equal. apply and_cells_comm.
Qed.

Lemma mask_and_assoc a b c :
  mask_and (mask_and a b) c = mask_and a (mask_and b c).
Proof.
  destruct a, b, c; simpl; auto;
    rewrite ?all_false_idem, ?and_cells_false_l, ?and_cells_false_r; auto.
  - f_equal. apply and_rows_assoc.
  - f_equal. apply and_cells_assoc.
Qed.

(** The conjunction of a list of masks, in list order. *)
Lemma mask_and_all_perm (l l' : list Mask) :
  Permutation l l' ->
  fold_right mask_and MTrue l = fold_right mask_and MTrue l'.
Proof.
  induction 1 as [| x l l' _ IH | x y l | l l' l'' _ IH1 _ IH2]; simpl.
  - reflexivity.
  - f_equal. exact IH.
  - rewrite <- !mask_and_assoc. f_equal. apply mask_and_comm.
  - congruence.
Qed.

Lemma combine_masks_fold mc ms mi md mdate msearch :
  combine_masks mc ms mi md mdate msearch =
  fold_right mask_and MTrue [MRows mc; ms; MRows mi; md; mdate; msearch].
Proof.
  unfold combine_masks. simpl fold_right.
  rewrite mask_and_true_r, !mask_and_assoc. reflexivity.
Qed.

(** ** Selecting rows *)

Lemma keep_map {A B : Type} (f : A -> B) m (l : list A) :
  keep m (map f l) = map f (keep m l).
Proof.
  revert l; induction m as [|b m IH]; intros [|x l]; simpl; auto.
  destruct b; simpl; rewrite IH; reflexivity.
Qed.

Lemma keep_combine {A B : Type} m (a : list A) (b : list B) :
  keep m (combine a b) = combine (keep m a) (keep m b).
Proof.
  revert a b; induction m as [|x m IH]; intros [|y a] [|z b]; simpl; auto.
  - destruct x; simpl; destruct (keep m a); reflexivity.
  - destruct x; simpl; rewrite IH; reflexivity.
Qed.

Lemma keep_nil {A : Type} m : keep m (@nil A) = [].
Proof. destruct m; reflexivity. Qed.

Lemma keep_self {A : Type} m (l : list A) :
  keep (keep m m) (keep m l) = keep m l.
Proof.
  revert l; induction m as [|b m IH]; intros [|x l]; simpl; auto.
  - apply keep_nil.
  - destruct b; simpl; rewrite IH; reflexivity.
Qed.

Lemma mapM_keep {A B : Type} (f : A -> Result B) m l bs :
  mapM f l = Ok bs -> mapM f (keep m l) = Ok (keep m bs).
Proof.
  revert l bs; induction m as [|b m IH]; intros l bs H.
  - reflexivity.
  - destruct l as [|x l]; simpl in H.
    + inversion H; subst. reflexivity.
    + inv_bind H. inv_bind H. inversion H; subst; clear H.
      specialize (IH _ _ Hv0). simpl.
      destruct b; simpl; [rewrite Hv; simpl|]; rewrite IH; reflexivity.
Qed.

Lemma get_col_keep df name col m :
  get_col df name = Ok col ->
  get_col (take_rows m df) name = Ok (keep m col).
Proof.
  unfold get_col, take_rows. simpl.
  destruct (index_of name (columns df)); [|discriminate].
  intros H; inversion H; subst. rewrite keep_map. reflexivity.
Qed.

Lemma mask_and_restrict m a b :
  mask_and (restrict m a) (restrict m b) = restrict m (mask_and a b).
Proof.
  destruct a as [|x|c], b as [|y|d]; simpl; auto; f_equal.
  - unfold and_rows. rewrite (keep_map _ m (combine x y)), keep_combine. reflexivity.
  - unfold all_false. symmetry. apply keep_map.
  - unfold all_false. symmetry. apply keep_map.
  - unfold and_cells. rewrite (keep_map _ m (combine c d)), keep_combine. reflexivity.
Qed.

(** ** Blanked frames *)

Lemma where_row_false (cr : list bool) r :
  where_row (map (fun _ => false) cr) r = map (fun _ => NA) r.
Proof.
  revert cr; induction r as [|v r IH]; intros [|b cr]; simpl; auto.
  - f_equal. apply (IH []).
  - f_equal. apply IH.
Qed.

Lemma where_rows_all_false (c : list (list bool)) rs :
  where_rows (all_false c) rs = map (map (fun _ => NA)) rs.
Proof.
  revert c; induction rs as [|r rs IH]; intros [|cr c]; simpl; auto.
  - f_equal; [apply (where_row_false []) | apply (IH [])].
  - f_equal; [apply where_row_false | apply IH].
Qed.

Lemma nth_blank j (r : list Cell) : nth j (map (fun _ => NA) r) NA = NA.
Proof.
  revert j; induction r as [|v r IH]; intros [|j]; simpl; auto.
Qed.

Lemma get_col_blank df name col :
  get_col df name = Ok col ->
  get_col (blank_frame df) name = Ok (map (fun _ => NA) (rows df)).
Proof.
  unfold get_col, blank_frame. simpl.
  destruct (index_of name (columns df)); [|discriminate].
  intros _. f_equal. rewrite map_map. apply map_ext. intros r. apply nth_blank.
Qed.

Lemma blank_frame_idem df : blank_frame (blank_frame df) = blank_frame df.
Proof.
  unfold blank_frame. simpl. f_equal. rewrite map_map. apply map_ext.
  intros r. rewrite map_map. reflexivity.
Qed.

Lemma mapM_const {A B C : Type} (f : A -> Result B) (a : A) (b : B) (l : list C) :
  f a = Ok b -> mapM f (map (fun _ => a) l) = Ok (map (fun _ => b) l).
Proof.
  intros H. induction l as [|x l IH]; simpl; auto.
  rewrite H. simpl. rewrite IH. reflexivity.
Qed.

(** ** The Filter Engine *)

Section EngineProperties.

Variable astype_str : Cell -> string.
Variable str_contains : string -> Result (string -> bool).

Lemma mask_status_rowish df choice M : mask_status df choice = Ok M -> rowish M.
Proof.
  unfold mask_status. destruct (String.eqb choice "All"); intros H.
  - inversion H; exact I.
  - inv_bind H. inversion H; exact I.
Qed.

Lemma mask_days_rowish df t M : mask_days df t = Ok M -> rowish M.
Proof.
  unfold mask_days. intros H. inv_bind H. inv_bind H. inversion H; exact I.
Qed.

Lemma mask_date_rowish df dr M : mask_date df dr = Ok M -> rowish M.
Proof.
  unfold mask_date. intros H.
  destruct (has_col LAST_DUE df); [|inversion H; exact I].
  destruct dr as [[[|a [|b [|? ?]]]| |]|]; try (inversion H; exact I).
  inv_bind H. inv_bind H. inversion H; exact I.
Qed.

Lemma mask_search_cases df q M :
  mask_search astype_str str_contains df q = Ok M ->
  (q = "" /\ M = MTrue) \/ (q <> "" /\ exists c, M = MCells c).
Proof.
  unfold mask_search. destruct (String.eqb_spec q ""); intros H.
  - left. inversion H; auto.
  - right. split; auto. destruct (rows df).
    + inversion H; eauto.
    + inv_bind H. inversion H; eauto.
Qed.

Lemma combine_masks_rows mc ms mi md mdate :
  rowish ms -> rowish md -> rowish mdate ->
  exists m, combine_masks mc ms mi md mdate MTrue = MRows m.
Proof.
  unfold combine_masks.
  destruct ms, md, mdate; simpl; intros; try contradiction; eauto.
Qed.

Lemma combine_masks_cells mc ms mi md mdate c :
  rowish ms -> rowish md -> rowish mdate ->
  combine_masks mc ms mi md mdate (MCells c) = MCells (all_false c).
Proof.
  unfold combine_masks.
  destruct ms, md, mdate; simpl; intros; try contradiction; reflexivity.
Qed.

Lemma combine_masks_restrict m mc ms mi md mdate msearch :
  combine_masks (keep m mc) (restrict m ms) (keep m mi) (restrict m md)
                (restrict m mdate) (restrict m msearch)
  = restrict m (combine_masks mc ms mi md mdate msearch).
Proof.
  unfold combine_masks.
  change (MRows (keep m mc)) with (restrict m (MRows mc)).
  change (MRows (keep m mi)) with (restrict m (MRows mi)).
  rewrite !mask_and_restrict. reflexivity.
Qed.

(** Each mask of the picked rows is the mask of the table read on the
    picked rows. *)

Lemma mask_customer_keep df cs b m :
  mask_customer df cs = Ok b ->
  mask_customer (take_rows m df) cs = Ok (keep m b).
Proof.
  unfold mask_customer. intros H. inv_bind H. inversion H; subst.
  rewrite (get_col_keep _ _ _ m Hv). simpl. rewrite keep_map. reflexivity.
Qed.

Lemma mask_item_keep df its b m :
  mask_item astype_str df its = Ok b ->
  mask_item astype_str (take_rows m df) its = Ok (keep m b).
Proof.
  unfold mask_item. intros H. inv_bind H. inversion H; subst.
  change (item_col (take_rows m df)) with (item_col df).
  rewrite (get_col_keep _ _ _ m Hv). simpl. rewrite keep_map. reflexivity.
Qed.

Lemma mask_status_keep df choice M m :
  mask_status df choice = Ok M ->
  mask_status (take_rows m df) choice = Ok (restrict m M).
Proof.
  unfold mask_status. destruct (String.eqb choice "All"); intros H.
  - inversion H; reflexivity.
  - inv_bind H. inversion H; subst.
    rewrite (get_col_keep _ _ _ m Hv). simpl. rewrite keep_map. reflexivity.
Qed.

Lemma mask_days_keep df t M m :
  mask_days df t = Ok M ->
  mask_days (take_rows m df) t = Ok (restrict m M).
Proof.
  unfold mask_days. intros H. inv_bind H. inv_bind H. inversion H; subst.
  rewrite (get_col_keep _ _ _ m Hv). simpl.
  rewrite (mapM_keep _ m _ _ Hv0). reflexivity.
Qed.

Lemma mask_date_keep df dr M m :
  mask_date df dr = Ok M ->
  mask_date (take_rows m df) dr = Ok (restrict m M).
Proof.
  unfold mask_date.
  change (has_col LAST_DUE (take_rows m df)) with (has_col LAST_DUE df).
  destruct (has_col LAST_DUE df); intros H; [|inversion H; reflexivity].
  destruct dr as [[[|a [|b [|? ?]]]| |]|]; try (inversion H; reflexivity).
  inv_bind H. inv_bind H. inversion H; subst.
  rewrite (get_col_keep _ _ _ m Hv). simpl.
  rewrite (mapM_keep _ m _ _ Hv0). reflexivity.
Qed.

(** With an empty search string the view is a selection of rows. *)
Lemma apply_criteria_rows df cr f :
  query cr = "" ->
  apply_criteria astype_str str_contains df cr = Ok f ->
  exists m, f = take_rows m df /\ apply_criteria astype_str str_contains (take_rows m df) cr = Ok (take_rows m df).
Proof.
  intros Hq H. unfold apply_criteria in *.
  inv_bind H. inv_bind H. inv_bind H. inv_bind H. inv_bind H. inv_bind H.
  rename v into mc, v0 into mi, v1 into ms, v2 into md, v3 into mdate, v4 into msearch.
  destruct (mask_search_cases _ _ _ Hv4) as [[_ ->]|[Hne _]]; [|congruence].
  destruct (combine_masks_rows mc ms mi md mdate
              (mask_status_rowish _ _ _ Hv1) (mask_days_rowish _ _ _ Hv2)
              (mask_date_rowish _ _ _ Hv3)) as (m & Hm).
  rewrite Hm in H. simpl in H. inversion H; subst; clear H.
  exists m. split; [reflexivity|].
  rewrite (mask_customer_keep _ _ _ m Hv). simpl.
  rewrite (mask_item_keep _ _ _ m Hv0). simpl.
  rewrite (mask_status_keep _ _ _ m Hv1). simpl.
  rewrite (mask_days_keep _ _ _ m Hv2). simpl.
  rewrite (mask_date_keep _ _ _ m Hv3). simpl.
  unfold mask_search. rewrite Hq. simpl.
  change MTrue with (restrict m MTrue).
  rewrite combine_masks_restrict, Hm. simpl.
  unfold take_rows. simpl. rewrite keep_self. reflexivity.
Qed.

(** The masks of a blanked table. *)

Lemma mask_customer_blank df cs b :
  mask_customer df cs = Ok b ->
  exists b', mask_customer (blank_frame df) cs = Ok b'.
Proof.
  unfold mask_customer. intros H. inv_bind H.
  rewrite (get_col_blank _ _ _ Hv). simpl. eauto.
Qed.

Lemma mask_item_blank df its b :
  mask_item astype_str df its = Ok b ->
  exists b', mask_item astype_str (blank_frame df) its = Ok b'.
Proof.
  unfold mask_item. intros H. inv_bind H.
  change (item_col (blank_frame df)) with (item_col df).
  rewrite (get_col_blank _ _ _ Hv). simpl. eauto.
Qed.

Lemma mask_status_blank df choice M :
  mask_status df choice = Ok M ->
  exists M', mask_status (blank_frame df) choice = Ok M' /\ rowish M'.
Proof.
  unfold mask_status. destruct (String.eqb choice "All"); intros H.
  - exists MTrue. split; [reflexivity | exact I].
  - inv_bind H. rewrite (get_col_blank _ _ _ Hv). simpl.
    eexists. split; [reflexivity | exact I].
Qed.

Lemma mask_days_blank df t M :
  mask_days df t = Ok M ->
  exists M', mask_days (blank_frame df) t = Ok M' /\ rowish M'.
Proof.
  unfold mask_days. intros H. inv_bind H.
  rewrite (get_col_blank _ _ _ Hv). simpl.
  rewrite (mapM_const (days_le t) NA true) by reflexivity. simpl.
  eexists. split; [reflexivity | exact I].
Qed.

Lemma mask_date_blank df dr M :
  mask_date df dr = Ok M ->
  exists M', mask_date (blank_frame df) dr = Ok M' /\ rowish M'.
Proof.
  unfold mask_date.
  change (has_col LAST_DUE (blank_frame df)) with (has_col LAST_DUE df).
  destruct (has_col LAST_DUE df); intros H;
    [| exists MTrue; split; [reflexivity | exact I]].
  destruct dr as [[[|a [|b [|? ?]]]| |]|];
    try (exists MTrue; split; [reflexivity | exact I]).
  inv_bind H. rewrite (get_col_blank _ _ _ Hv). simpl.
  rewrite (mapM_const (date_between a b) NA true) by reflexivity. simpl.
  eexists. split; [reflexivity | exact I].
Qed.

Lemma mask_search_blank df q c :
  q <> "" ->
  mask_search astype_str str_contains df q = Ok (MCells c) ->
  exists c', mask_search astype_str str_contains (blank_frame df) q = Ok (MCells c').
Proof.
  unfold mask_search. intros Hq. destruct (String.eqb_spec q ""); [contradiction|].
  unfold blank_frame. simpl. destruct (rows df); simpl; intros H.
  - eauto.
  - inv_bind H. rewrite Hv. simpl. eauto.
Qed.

(** With a search string the combined mask is a DataFrame that holds
    [False] throughout: the view keeps every row and blanks every cell. *)
Lemma apply_criteria_search df cr f :
  query cr <> "" ->
  apply_criteria astype_str str_contains df cr = Ok f ->
  f = blank_frame df /\
  apply_criteria astype_str str_contains (blank_frame df) cr = Ok (blank_frame df).
Proof.
  intros Hq H. unfold apply_criteria in *.
  inv_bind H. inv_bind H. inv_bind H. inv_bind H. inv_bind H. inv_bind H.
  rename v into mc, v0 into mi, v1 into ms, v2 into md, v3 into mdate, v4 into msearch.
  destruct (mask_search_cases _ _ _ Hv4) as [[Hq' _]|[_ (c & ->)]]; [congruence|].
  rewrite combine_masks_cells in H
    by eauto using mask_status_rowish, mask_days_rowish, mask_date_rowish.
  simpl in H. rewrite where_rows_all_false in H. inversion H; subst; clear H.
  split; [reflexivity|].
  destruct (mask_customer_blank _ _ _ Hv) as (mc' & ->).
  destruct (mask_item_blank _ _ _ Hv0) as (mi' & ->).
  destruct (mask_status_blank _ _ _ Hv1) as (ms' & -> & Rs).
  destruct (mask_days_blank _ _ _ Hv2) as (md' & -> & Rd).
  destruct (mask_date_blank _ _ _ Hv3) as (mdate' & -> & Rdate).
  destruct (mask_search_blank _ _ _ Hq Hv4) as (c' & ->).
  simpl. rewrite combine_masks_cells by assumption.
  simpl. rewrite where_rows_all_false.
  exact (f_equal Ok (blank_frame_idem df)).
Qed.

(** C8. For fixed criteria, filtering the filtered view again returns it
    unchanged; and the conjunction of the per-criterion masks is
    commutative and associative, so that the six masks combined in any
    order select the same view. *)
Theorem filtering_idempotent_and_order_free df cr f :
  apply_criteria astype_str str_contains df cr = Ok f ->
  apply_criteria astype_str str_contains f cr = Ok f /\
  (forall a b, mask_and a b = mask_and b a) /\
  (forall a b c, mask_and (mask_and a b) c = mask_and a (mask_and b c)) /\
  (forall mc ms mi md mdate msearch masks,
      Permutation [MRows mc; ms; MRows mi; md; mdate; msearch] masks ->
      select df (fold_right mask_and MTrue masks) =
      select df (combine_masks mc ms mi md mdate msearch)).
Proof.
  intros H. split; [| split; [| split]].
  - destruct (String.eqb_spec (query cr) "") as [Hq|Hq].
    + destruct (apply_criteria_rows _ _ _ Hq H) as (m & -> & H'). exact H'.
    + destruct (apply_criteria_search _ _ _ Hq H) as (-> & H'). exact H'.
  - apply mask_and_comm.
  - apply mask_and_assoc.
  - intros mc ms mi md mdate msearch masks HP.
    rewrite combine_masks_fold. f_equal. symmetry.
    apply mask_and_all_perm. exact HP.
Qed.

End EngineProperties.

(** ** Aggregator *)

Lemma numeric_values_ok col qs :
  numeric_values col = Ok qs -> qs = non_missing_numbers col.
Proof.
  revert qs; induction col as [|c col IH]; simpl; intros qs H.
  - inversion H; reflexivity.
  - destruct c; try discriminate.
    + auto.
    + inv_bind H. inversion H; subst. simpl. f_equal. auto.
Qed.

Lemma all_na_no_numbers col :
  forallb is_na col = true -> non_missing_numbers col = [].
Proof.
  induction col as [|c col IH]; simpl; auto.
  destruct c; simpl; try discriminate. exact IH.
Qed.

Lemma numeric_values_nonempty col qs :
  numeric_values col = Ok qs -> forallb is_na col = false -> qs <> [].
Proof.
  revert qs; induction col as [|c col IH]; simpl; intros qs H Hf; [discriminate|].
  destruct c; simpl in *; try discriminate.
  - eauto.
  - inv_bind H. inversion H. discriminate.
Qed.

Lemma get_col_values f name col :
  get_col f name = Ok col -> column_values f name = col.
Proof.
  unfold get_col, column_values.
  destruct (index_of name (columns f)); [|discriminate].
  intros H; inversion H; reflexivity.
Qed.

Lemma filter_map_comm {A B : Type} (p : B -> bool) (g : A -> B) (l : list A) :
  filter p (map g l) = map g (filter (fun a => p (g a)) l).
Proof.
  induction l as [|a l IH]; simpl; auto.
  destruct (p (g a)); simpl; rewrite IH; reflexivity.
Qed.

Lemma count_status f status :
  get_col f STATUS = Ok status ->
  count_if (fun c => cell_eqb c (Str REORDER_SOON)) status
  = Z.of_nat (List.length (filter (status_is (columns f) REORDER_SOON) (rows f))).
Proof.
  unfold get_col, count_if, status_is.
  destruct (index_of STATUS (columns f)) as [j|]; [|discriminate].
  intros H; inversion H; subst; clear H.
  rewrite filter_map_comm, length_map.
  erewrite filter_ext; [reflexivity|].
  intros r. simpl. destruct (nth j r NA); reflexivity.
Qed.

Lemma py_round_finite x z :
  py_round x = Ok z -> exists q, x = Finite q /\ z = round_half_even q.
Proof.
  destruct x as [q| |]; simpl; intros H; try discriminate.
  inversion H. eauto.
Qed.

(** The metrics are produced whenever the three columns are present, the two
    numeric ones hold numbers or missing values, and their reductions come
    out finite. *)
Lemma kpis_returns series_sum series_mean f status days qty ds qs m t :
  get_col f STATUS = Ok status ->
  get_col f DAYS_UNTIL_OUT = Ok days -> numeric_values days = Ok ds ->
  get_col f SUGGESTED_QTY = Ok qty -> numeric_values qty = Ok qs ->
  series_mean days = Finite m -> series_sum qty = Finite t ->
  exists k, kpis series_sum series_mean f = Ok k.
Proof.
  intros H1 H2 H3 H4 H5 H6 H7. unfold kpis.
  destruct (frame_empty f); [eauto|].
  rewrite H1, H2. simpl. rewrite H3, H6. simpl.
  destruct (forallb is_na days); simpl; rewrite H4; simpl; rewrite H5; simpl;
    rewrite H7; simpl; eauto.
Qed.

(** C7. The four metrics of a filtered view: Total Items is the row count;
    Need Reorder counts the rows whose Status is exactly Reorder Soon; Avg
    Days Until Out is 0 when the view holds no Days Until Out value, and
    otherwise the floating-point mean pandas gives for the column, rounded to
    the nearest integer with a tie going to the even one; Total Suggested Qty
    is the floating-point sum pandas gives for the Suggested Order Qty
    column, rounded the same way; all four are 0 on a view without rows. *)
Theorem kpis_summarise_view series_sum series_mean f k :
  columns f <> [] ->
  kpis series_sum series_mean f = Ok k ->
  total_items k = Z.of_nat (List.length (rows f)) /\
  need_reorder k
    = Z.of_nat (List.length (filter (status_is (columns f) REORDER_SOON) (rows f))) /\
  (non_missing_numbers (column_values f DAYS_UNTIL_OUT) = [] -> avg_days k = 0) /\
  (non_missing_numbers (column_values f DAYS_UNTIL_OUT) <> [] ->
     exists m, series_mean (column_values f DAYS_UNTIL_OUT) = Finite m /\
               rounds_to m (avg_days k)) /\
  (rows f <> [] ->
     exists t, series_sum (column_values f SUGGESTED_QTY) = Finite t /\
               rounds_to t (total_qty k)) /\
  (rows f = [] -> k = mkKpis 0 0 0 0).
Proof.
  intros Hc H. unfold kpis in H.
  destruct (frame_empty f) eqn:Hfe.
  - assert (Hr : rows f = []).
    { unfold frame_empty in Hfe. destruct (rows f); [reflexivity|].
      destruct (columns f); [congruence | discriminate]. }
    inversion H; subst; clear H. simpl.
    assert (E : forall name, column_values f name = []).
    { intros name. unfold column_values. rewrite Hr.
      destruct (index_of name (columns f)); reflexivity. }
    rewrite !E, Hr. simpl.
    repeat split; auto; congruence.
  - assert (Hr : rows f <> []).
    { unfold frame_empty in Hfe. destruct (rows f); [discriminate | congruence]. }
    inv_bind H. inv_bind H. inv_bind H. inv_bind H. inv_bind H. inv_bind H.
    inversion H; subst; clear H. simpl.
    rename v into status, v0 into days, v1 into avg, v2 into qty, v4 into total.
    rewrite (get_col_values _ _ _ Hv0), (get_col_values _ _ _ Hv2).
    destruct (py_round_finite _ _ Hv4) as (t & Et & Etot). subst total.
    split; [reflexivity|].
    split; [apply count_status; assumption|].
    assert (Hq : exists t0, series_sum qty = Finite t0 /\
                            rounds_to t0 (round_half_even t)).
    { exists t. split; [exact Et | apply round_half_even_rounds_to]. }
    destruct (forallb is_na days) eqn:Hna.
    + inversion Hv1; subst avg.
      rewrite (all_na_no_numbers _ Hna).
      repeat split; intros; congruence || exact Hq.
    + inv_bind Hv1.
      pose proof (numeric_values_nonempty _ _ Hv5 Hna) as Hne.
      apply numeric_values_ok in Hv5. subst v.
      destruct (py_round_finite _ _ Hv1) as (m & Em & Eavg). subst avg.
      repeat split; intros; try congruence; try exact Hq.
      exists m. split; [exact Em | apply round_half_even_rounds_to].
Qed.

(** ** Detailed records *)

Lemma firstn_succ {A : Type} (l : list A) i x :
  nth_error l i = Some x -> firstn (S i) l = firstn i l ++ [x].
Proof.
  revert i; induction l as [|a l IH]; intros [|i] H; simpl in *; try discriminate.
  - inversion H; reflexivity.
  - f_equal. apply IH. exact H.
Qed.

Lemma directly_follows_mid a b pre post :
  directly_follows a b (pre ++ a :: b :: post) = true.
Proof.
  induction pre as [|x pre IH]; simpl.
  - rewrite !String.eqb_refl. reflexivity.
  - destruct (pre ++ a :: b :: post) eqn:E.
    + destruct pre; discriminate.
    + rewrite IH. apply orb_true_r.
Qed.

(** When Suggested Reorder Date stands anywhere after Days Until Out, as it
    does once appended by the deriver, line 149 moves it right behind. *)
Lemma cols_adjacent labels i j :
  index_of DAYS_UNTIL_OUT labels = Some i ->
  index_of SUGGESTED_DATE labels = Some j ->
  (i < j)%nat ->
  directly_follows DAYS_UNTIL_OUT SUGGESTED_DATE (cols labels) = true.
Proof.
  intros Hi Hj Hlt. unfold cols. rewrite Hi, Hj.
  unfold insert_at, remove_at.
  pose proof (index_of_lt _ _ _ Hj) as Hjl.
  rewrite firstn_app, firstn_firstn, length_firstn.
  replace (Nat.min (S i) j) with (S i) by lia.
  replace (S i - Nat.min j (List.length labels))%nat with O by lia.
  simpl firstn at 2. rewrite app_nil_r.
  rewrite (firstn_succ _ _ _ (index_of_nth _ _ _ Hi)).
  rewrite <- app_assoc. simpl. apply directly_follows_mid.
Qed.

(** ** The page *)

Lemma select_columns df M f : select df M = Ok f -> columns f = columns df.
Proof.
  destruct M; simpl; intros H; inversion H; reflexivity.
Qed.

Section ScriptProperties.

Variable astype_str : Cell -> string.
Variable str_contains : string -> Result (string -> bool).

Lemma apply_criteria_columns df cr f :
  apply_criteria astype_str str_contains df cr = Ok f -> columns f = columns df.
Proof.
  unfold apply_criteria. intros H.
  inv_bind H. inv_bind H. inv_bind H. inv_bind H. inv_bind H. inv_bind H.
  eapply select_columns; eauto.
Qed.

Lemma filtered_columns df w f :
  filtered astype_str str_contains df w = Ok f -> columns f = columns df.
Proof.
  unfold filtered. intros H. inv_bind H. eapply apply_criteria_columns; eauto.
Qed.

(** Without a Days Until Out column the sidebar cannot be built: reading
    the column for the slider raises, whatever the widgets hold. *)
Lemma filtered_needs_days_column df w f :
  has_col DAYS_UNTIL_OUT df = false ->
  filtered astype_str str_contains df w <> Ok f.
Proof.
  intros Hh H. unfold filtered in H. inv_bind H. clear H.
  unfold sidebar in Hv.
  inv_bind Hv. inv_bind Hv. inv_bind Hv. inv_bind Hv. inv_bind Hv. inv_bind Hv.
  unfold pick_days, get_col in Hv5. unfold has_col in Hh.
  destruct (index_of DAYS_UNTIL_OUT (columns df)); discriminate.
Qed.

(** Without a Last Due column the date filter lets every row through. *)
Lemma mask_date_absent df dr :
  has_col LAST_DUE df = false -> mask_date df dr = Ok MTrue.
Proof. unfold mask_date. intros ->. reflexivity. Qed.

(** With an empty search string every row of the view is a row of the
    table, cell for cell. *)
Lemma view_rows_are_table_rows df cr f r :
  query cr = "" ->
  apply_criteria astype_str str_contains df cr = Ok f ->
  In r (rows f) -> In r (rows df).
Proof.
  intros Hq H Hin.
  destruct (apply_criteria_rows _ _ _ _ _ Hq H) as (m & -> & _).
  simpl in Hin. clear H. revert m Hin.
  induction (rows df) as [|x l IH]; intros [|b m] Hin; simpl in *; try contradiction.
  destruct b; simpl in Hin; [destruct Hin as [->|Hin]|]; eauto.
Qed.

(** C10. The uploaded file has no part in the view, the metrics, the
    detailed table or the export, which come from the report read at
    startup; it is handed to the page as it was read. *)
Theorem upload_leaves_working_table series_sum series_mean base today report w u1 u2 :
  match script astype_str str_contains series_sum series_mean base today report w u1,
        script astype_str str_contains series_sum series_mean base today report w u2 with
  | Ok p1, Ok p2 =>
      page_view p1 = page_view p2 /\
      page_kpis p1 = page_kpis p2 /\
      page_detail p1 = page_detail p2 /\
      csv_bytes p1 = csv_bytes p2 /\
      new_df p1 = u1 /\ new_df p2 = u2
  | Raise e1, Raise e2 => e1 = e2
  | _, _ => False
  end.
Proof.
  unfold script.
  destruct (add_suggested_date base today report 5) as [df|e]; simpl; auto.
  destruct (filtered astype_str str_contains df w) as [view|e]; simpl; auto.
  destruct (kpis series_sum series_mean view) as [k|e]; simpl; auto.
  repeat split; reflexivity.
Qed.

End ScriptProperties.


(** ** The default state *)

Lemma cell_eqb_fillna_refl c : cell_eqb (fillna_blank c) (fillna_blank c) = true.
Proof.
  destruct c; simpl.
  - reflexivity.
  - apply Qeq_bool_iff. reflexivity.
  - apply String.eqb_refl.
  - apply Z.eqb_refl.
Qed.

Lemma cell_eqb_trans a b c :
  cell_eqb a b = true -> cell_eqb b c = true -> cell_eqb a c = true.
Proof.
  destruct a, b, c; simpl; try discriminate; intros H1 H2.
  - apply Qeq_bool_iff. apply Qeq_bool_iff in H1, H2. rewrite H1. exact H2.
  - apply String.eqb_eq in H1, H2. subst. apply String.eqb_refl.
  - apply Z.eqb_eq in H1, H2. subst. apply Z.eqb_refl.
Qed.

Lemma isin_inv x l : isin x l = true -> exists y, In y l /\ cell_eqb x y = true.
Proof. unfold isin. apply existsb_exists. Qed.

Lemma isin_intro x y l : In y l -> cell_eqb x y = true -> isin x l = true.
Proof. intros. unfold isin. apply existsb_exists. eauto. Qed.

Lemma unique_acc_In seen l u : In u (unique_acc seen l) -> In u l.
Proof.
  revert seen; induction l as [|c l IH]; simpl; intros seen H; [contradiction|].
  destruct (isin c seen).
  - right. eapply IH; eauto.
  - destruct H as [->|H]; [left; reflexivity | right; eapply IH; eauto].
Qed.

(** [unique] keeps a representative of every value. *)
Lemma isin_unique_acc x seen l :
  isin x l = true -> isin x seen = true \/ isin x (unique_acc seen l) = true.
Proof.
  revert seen; induction l as [|c l IH]; simpl; intros seen H; [discriminate|].
  apply orb_true_iff in H. destruct (isin c seen) eqn:Hc.
  - destruct H as [H|H]; [|apply IH; exact H].
    left. apply isin_inv in Hc. destruct Hc as (s & Hs & Ecs).
    eapply isin_intro; eauto using cell_eqb_trans.
  - simpl. destruct H as [H|H]; [right; rewrite H; reflexivity|].
    destruct (IH (c :: seen) H) as [H'|H'].
    + simpl in H'. apply orb_true_iff in H'. destruct H' as [H'|H'];
        [right; rewrite H'; reflexivity | left; exact H'].
    + right. rewrite H'. apply orb_true_r.
Qed.

Lemma isin_unique x l : isin x l = true -> isin x (unique l) = true.
Proof.
  intros H. destruct (isin_unique_acc x [] l H) as [H'|H']; [discriminate | exact H'].
Qed.

Lemma insert_sorted_In x l r y :
  insert_sorted x l = Ok r -> (y = x \/ In y l) -> In y r.
Proof.
  revert r; induction l as [|c l IH]; simpl; intros r H Hy.
  - inversion H; subst. destruct Hy as [->|[]]. left; reflexivity.
  - inv_bind H. destruct v.
    + inversion H; subst. destruct Hy as [->|Hy]; [left; reflexivity | right; exact Hy].
    + inv_bind H. inversion H; subst.
      destruct Hy as [->|[->|Hy]].
      * right. eapply IH; eauto.
      * left; reflexivity.
      * right. eapply IH; eauto.
Qed.

(** [sorted] rearranges: it loses no value. *)
Lemma py_sorted_In l s y : py_sorted l = Ok s -> In y l -> In y s.
Proof.
  revert s; induction l as [|c l IH]; simpl; intros s H Hy; [contradiction|].
  inv_bind H. eapply insert_sorted_In; eauto.
  destruct Hy as [->|Hy]; [left; reflexivity | right; eauto].
Qed.

Lemma insert_str_In x l y : (y = x \/ In y l) -> In y (insert_str x l).
Proof.
  induction l as [|c l IH]; simpl; intros Hy.
  - destruct Hy as [->|[]]. left; reflexivity.
  - destruct (String.ltb x c).
    + destruct Hy as [->|Hy]; [left; reflexivity | right; exact Hy].
    + destruct Hy as [->|[->|Hy]]; [right | left | right]; auto.
Qed.

Lemma sorted_str_In l y : In y l -> In y (sorted_str l).
Proof.
  unfold sorted_str. induction l as [|c l IH]; simpl; intros Hy; [contradiction|].
  apply insert_str_In. destruct Hy as [->|Hy]; auto.
Qed.

Lemma isin_str_In s l : In s l -> isin_str s l = true.
Proof.
  intros H. unfold isin_str. apply existsb_exists. exists s. split; auto.
  apply String.eqb_refl.
Qed.

Lemma keep_true_map {A B C : Type} (g : A -> B) (l : list A) (l' : list C) :
  List.length l' = List.length l ->
  keep (map (fun _ => true) l') (map g l) = map g l.
Proof.
  revert l'; induction l as [|a l IH]; intros [|c l'] H; simpl in *; try lia; auto.
  f_equal. apply IH. lia.
Qed.

Lemma and_rows_true {A : Type} (l : list A) :
  and_rows (map (fun _ => true) l) (map (fun _ => true) l) = map (fun _ => true) l.
Proof.
  unfold and_rows. induction l as [|a l IH]; simpl; auto. f_equal. exact IH.
Qed.

Lemma mapM_all_true {A : Type} (g : A -> Result bool) l m :
  mapM g l = Ok m ->
  (forall a, In a l -> g a = Ok true \/ exists e, g a = Raise e) ->
  m = map (fun _ => true) l.
Proof.
  revert m; induction l as [|a l IH]; simpl; intros m H Hall.
  - inversion H; reflexivity.
  - inv_bind H. inv_bind H. inversion H; subst; clear H.
    destruct (Hall a (or_introl eq_refl)) as [E|(e & E)]; rewrite E in Hv;
      [|discriminate].
    inversion Hv; subst. f_equal. apply IH; auto.
Qed.

Lemma isin_sorted_unique l s x :
  py_sorted (unique l) = Ok s -> In x l -> cell_eqb x x = true -> isin x s = true.
Proof.
  intros Hs Hin Hx.
  assert (H : isin x (unique l) = true) by (apply isin_unique; eapply isin_intro; eauto).
  apply isin_inv in H. destruct H as (y & Hy & E).
  eapply isin_intro; eauto using py_sorted_In.
Qed.

Lemma frame_eta df : mkFrame (columns df) (rows df) = df.
Proof. destruct df; reflexivity. Qed.

Section DefaultState.

Variable astype_str : Cell -> string.
Variable str_contains : string -> Result (string -> bool).

Lemma mask_date_default df dr :
  pick_dates df default_widgets = Ok dr -> mask_date df dr = Ok MTrue.
Proof.
  unfold pick_dates, mask_date. destruct (has_col LAST_DUE df); intros H.
  - inv_bind H. inv_bind H. destruct v0; [discriminate|].
    simpl in H. inversion H; reflexivity.
  - reflexivity.
Qed.

Lemma mask_customer_default df cs mc :
  pick_customers df default_widgets = Ok cs ->
  mask_customer df cs = Ok mc ->
  mc = map (fun _ => true) (rows df).
Proof.
  unfold pick_customers, mask_customer. intros H Hm.
  inv_bind H. inv_bind H. simpl in H. inversion H; subst cs; clear H.
  rewrite Hv in Hm. simpl in Hm. inversion Hm; subst mc; clear Hm.
  unfold get_col in Hv. destruct (index_of CUSTOMER (columns df)) as [j|]; [|discriminate].
  inversion Hv; subst v; clear Hv. rewrite map_map. apply map_ext_in. intros r Hr.
  eapply isin_sorted_unique; eauto using cell_eqb_fillna_refl.
  apply in_map. apply in_map with (f := fun r => nth j r NA). exact Hr.
Qed.

Lemma mask_item_default df mc its mi :
  mc = map (fun _ => true) (rows df) ->
  (forall a b, In a (column_values df (item_col df)) ->
               In b (column_values df (item_col df)) ->
               cell_eqb (fillna_blank a) (fillna_blank b) = true ->
               astype_str (fillna_blank a) = astype_str (fillna_blank b)) ->
  pick_items astype_str df mc default_widgets = Ok its ->
  mask_item astype_str df its = Ok mi ->
  mi = map (fun _ => true) (rows df).
Proof.
  unfold pick_items, mask_item. intros -> Hitem H Hm.
  inv_bind H. simpl in H. inversion H; subst its; clear H.
  rewrite Hv in Hm. simpl in Hm. inversion Hm; subst mi; clear Hm.
  rewrite (get_col_values _ _ _ Hv) in Hitem.
  unfold get_col in Hv.
  destruct (index_of (item_col df) (columns df)) as [j|]; [|discriminate].
  inversion Hv; subst v; clear Hv.
  rewrite keep_true_map by reflexivity.
  rewrite map_map. apply map_ext_in. intros r Hr.
  set (icol := map (fun r => nth j r NA) (rows df)) in *.
  assert (Hc : In (nth j r NA) icol) by (apply in_map with (f := fun r => nth j r NA); exact Hr).
  assert (H : isin (fillna_blank (nth j r NA)) (unique (map fillna_blank icol)) = true).
  { apply isin_unique. eapply isin_intro; [apply in_map; exact Hc|].
    apply cell_eqb_fillna_refl. }
  apply isin_inv in H. destruct H as (u & Hu & E).
  pose proof (unique_acc_In _ _ _ Hu) as Hu'.
  apply in_map_iff in Hu'. destruct Hu' as (b & <- & Hb).
  rewrite (Hitem _ _ Hc Hb E).
  apply isin_str_In, sorted_str_In, in_map. exact Hu.
Qed.

Lemma mask_days_default df t md :
  (forall q, In (Num q) (column_values df DAYS_UNTIL_OUT) -> (q <= inject_Z t)%Q) ->
  mask_days df t = Ok md ->
  md = MRows (map (fun _ => true) (rows df)).
Proof.
  unfold mask_days. intros Hdays H. inv_bind H. inv_bind H.
  inversion H; subst md; clear H.
  rewrite (get_col_values _ _ _ Hv) in Hdays.
  apply mapM_all_true in Hv0.
  - subst v0. f_equal. unfold get_col in Hv.
    destruct (index_of DAYS_UNTIL_OUT (columns df)); [|discriminate].
    inversion Hv. apply map_map.
  - intros [| q | s | d] Ha; simpl; eauto.
    left. f_equal. apply Qle_bool_iff. apply Hdays. exact Ha.
Qed.

(** The default state shows the whole table when the slider, which stands at
    [int(max)], is not below any Days Until Out value, and equal Item values
    have one rendering. *)
Lemma default_view_is_table df cr :
  sidebar astype_str df default_widgets = Ok cr ->
  (forall q, In (Num q) (column_values df DAYS_UNTIL_OUT) ->
             (q <= inject_Z (days_slider cr))%Q) ->
  (forall a b, In a (column_values df (item_col df)) ->
               In b (column_values df (item_col df)) ->
               cell_eqb (fillna_blank a) (fillna_blank b) = true ->
               astype_str (fillna_blank a) = astype_str (fillna_blank b)) ->
  filtered astype_str str_contains df default_widgets = Ok df.
Proof.
  intros Hs Hdays Hitem. unfold filtered. rewrite Hs. simpl.
  unfold sidebar in Hs.
  inv_bind Hs. inv_bind Hs. inv_bind Hs. inv_bind Hs. inv_bind Hs. inv_bind Hs.
  inv_bind Hs. inv_bind Hs. inversion Hs; subst cr; clear Hs. simpl in *.
  rename v into cs, v0 into mc, v1 into its, v2 into mi, v3 into ms,
         v4 into t, v5 into md, v6 into dr.
  pose proof (mask_customer_default _ _ _ Hv Hv0) as Emc.
  pose proof (mask_item_default _ _ _ _ Emc Hitem Hv1 Hv2) as Emi.
  pose proof (mask_days_default _ _ _ Hdays Hv5) as Emd.
  unfold apply_criteria. simpl.
  rewrite Hv0, Hv2. simpl. rewrite Hv5. simpl.
  rewrite (mask_date_default _ _ Hv6). simpl.
  subst mc mi md. unfold combine_masks. simpl.
  rewrite !and_rows_true.
  rewrite <- (map_id (rows df)) at 2.
  rewrite keep_true_map by reflexivity. rewrite map_id.
  f_equal. apply frame_eta.
Qed.

End DefaultState.

Section ViewProperties.

Variable astype_str : Cell -> string.
Variable str_contains : string -> Result (string -> bool).

Lemma sidebar_query df w cr :
  sidebar astype_str df w = Ok cr -> query cr = search_text w.
Proof.
  unfold sidebar. intros H.
  inv_bind H. inv_bind H. inv_bind H. inv_bind H. inv_bind H. inv_bind H.
  inv_bind H. inv_bind H. inversion H; reflexivity.
Qed.

(** Whatever is typed in the search box, the view is the table with every
    cell blanked, all rows kept. *)
Lemma filtered_search_blank df w f :
  search_text w <> "" ->
  filtered astype_str str_contains df w = Ok f ->
  f = blank_frame df.
Proof.
  unfold filtered. intros Hq H. inv_bind H.
  rewrite <- (sidebar_query _ _ _ Hv) in Hq.
  apply (apply_criteria_search _ _ _ _ _ Hq H).
Qed.

(** The view of a page has the table's columns, Customer among them. *)
Lemma view_has_columns df w f :
  filtered astype_str str_contains df w = Ok f -> columns f <> [].
Proof.
  intros H. rewrite (filtered_columns _ _ _ _ _ H).
  unfold filtered in H. inv_bind H. unfold sidebar in Hv. inv_bind Hv.
  unfold pick_customers, get_col in Hv0.
  destruct (columns df); [discriminate | discriminate].
Qed.

End ViewProperties.

(** ** Small evaluations *)

Example round_ties_to_even :
  map round_half_even [1 # 2; 3 # 2; 5 # 2; -1 # 2; -3 # 2; 7 # 3; 61 # 2]
  = [0; 2; 2; 0; -2; 2; 30].
Proof. reflexivity. Qed.

Example py_int_truncates :
  map py_int [61 # 2; 5 # 2; -5 # 2; 30 # 1] = [30; 2; -2; 30].
Proof. reflexivity. Qed.

Example cols_after_derivation :
  cols ["Customer"; "Days Until Out"; "Suggested Order Qty"; "Suggested Reorder Date"]
  = ["Customer"; "Days Until Out"; "Suggested Reorder Date"; "Suggested Order Qty"].
Proof. reflexivity. Qed.

(** A report that already carries a Suggested Reorder Date column ahead of
    Days Until Out: the position read before the [pop] is one too far. *)
Example cols_date_first :
  cols ["Suggested Reorder Date"; "Days Until Out"; "Customer"]
  = ["Days Until Out"; "Customer"; "Suggested Reorder Date"].
Proof. reflexivity. Qed.

Example status_filter_on_sample :
  apply_criteria plain_str literal_search sample_derived status_criteria
  = Ok (take_rows [true; false] sample_derived).
Proof. reflexivity. Qed.

Example kpis_on_status_view :
  kpis float_sum float_mean (take_rows [true; false] sample_derived)
  = Ok (mkKpis 1 1 2 10).
Proof. reflexivity. Qed.

(** ** The script on the sample tables *)

Lemma sample_report_wf : wf_frame sample_report.
Proof. repeat constructor. Qed.

Lemma sample_report_derived :
  add_suggested_date 20000 20000 sample_report 5 = Ok sample_derived.
Proof. reflexivity. Qed.

(** C3. In the default state the slider stands at [int(max)], which is below
    a fractional maximum: of the two rows of [fractional_report] the view
    keeps only the first, the row holding the maximum 30.5 fails
    [30.5 <= 30]. *)
Theorem default_view_drops_fractional_maximum :
  exists p,
    script plain_str literal_search float_sum float_mean 20000 20000 fractional_report default_widgets None
      = Ok p /\
    rows (page_view p)
      = [[Str "A"; Str "X1"; Str "Reorder Soon"; Num (2 # 1); Num (10 # 1); Date 20000]] /\
    total_items (page_kpis p) = 1.
Proof.
  eexists. split; [vm_compute; reflexivity|]. split; reflexivity.
Qed.

(** C4. On a report without the Days Until Out column the deriver is a
    no-op, and the run then stops at line 84 with a [KeyError] instead of
    skipping the days filter. *)
Theorem missing_days_column_raises :
  add_suggested_date 20000 20000 no_days_report 5 = Ok no_days_report /\
  script plain_str literal_search float_sum float_mean 20000 20000 no_days_report default_widgets None
    = Raise (KeyError "Days Until Out").
Proof. split; reflexivity. Qed.

(** C5, the claim as stated fails.  In the default state on the sample
    report the table on screen shows Suggested Reorder Date right after Days
    Until Out, while the export keeps it as the last column. *)
Lemma csv_order_is_not_display_order :
  exists p d,
    script plain_str literal_search float_sum float_mean 20000 20000 sample_report default_widgets None
      = Ok p /\
    page_detail p = Some d /\
    csv_header (csv_bytes p) <> columns d /\
    directly_follows DAYS_UNTIL_OUT SUGGESTED_DATE (columns d) = true /\
    directly_follows DAYS_UNTIL_OUT SUGGESTED_DATE (csv_header (csv_bytes p)) = false.
Proof.
  do 2 eexists. split; [vm_compute; reflexivity|]. split; [reflexivity|].
  split; [discriminate|]. split; reflexivity.
Qed.

(** C7, the claim as first stated fails.  In the default state on a report
    whose Suggested Order Qty column holds 0.1, 0.2 and 0.2, all three rows
    are in the view.  The three values add up to a little more than one
    half, so the sum rounded to the nearest integer is 1; their float64 sum
    is exactly one half, which rounds to 0, and the page shows 0. *)
Lemma total_qty_is_not_the_rounded_sum :
  exists p,
    script plain_str literal_search float_sum float_mean 20000 20000 tenths_report
           default_widgets None = Ok p /\
    page_view p = tenths_derived /\
    non_missing_numbers (column_values (page_view p) SUGGESTED_QTY)
    = [float_01; float_02; float_02] /\
    (1 # 2 < Qsum [float_01; float_02; float_02])%Q /\
    nearest_integer (Qsum [float_01; float_02; float_02]) 1 /\
    ~ nearest_integer (Qsum [float_01; float_02; float_02]) (total_qty (page_kpis p)) /\
    float_sum (column_values (page_view p) SUGGESTED_QTY) = Finite (1 # 2) /\
    total_qty (page_kpis p) = 0.
Proof.
  eexists. split; [vm_compute; reflexivity|].
  split; [reflexivity|]. split; [reflexivity|].
  split; [reflexivity|].
  split; [vm_compute; discriminate|].
  split; [intros H; vm_compute in H; apply H; reflexivity|].
  split; vm_compute; reflexivity.
Qed.

(** C6. Searching the sample report for "A": the view still has both rows,
    customer B included, and every cell of it is a missing value. *)
Theorem search_keeps_every_row_blanked :
  exists p,
    script plain_str literal_search float_sum float_mean 20000 20000 sample_report (search_widgets "A") None
      = Ok p /\
    rows (page_view p) = [[NA; NA; NA; NA; NA; NA]; [NA; NA; NA; NA; NA; NA]] /\
    total_items (page_kpis p) = 2.
Proof.
  eexists. split; [vm_compute; reflexivity|]. split; reflexivity.
Qed.

(** C9. Searching the sample report for "x1": no row of the view is a row
    of the table any more, the stored values are gone from the view. *)
Theorem search_view_loses_stored_values :
  exists p,
    script plain_str literal_search float_sum float_mean 20000 20000 sample_report (search_widgets "x1") None
      = Ok p /\
    page_view p = blank_frame sample_derived /\
    forall r, In r (rows (page_view p)) -> ~ In r (rows sample_derived).
Proof.
  eexists. split; [vm_compute; reflexivity|]. split; [reflexivity|].
  simpl. intros r [<-|[<-|[]]] [H|[H|[]]]; discriminate.
Qed.

(** The default state on the sample table, whose values are whole numbers. *)
Example default_view_sample :
  filtered plain_str literal_search sample_derived default_widgets = Ok sample_derived.
Proof.
  apply (default_view_is_table plain_str literal_search sample_derived
           (mkCriteria [Str "A"; Str "B"] ["X1"; "X2"] "All" 30 None "")).
  - reflexivity.
  - simpl. intros q [H|[H|[]]]; inversion H; subst; vm_compute; discriminate.
  - simpl. intros a b [<-|[<-|[]]] [<-|[<-|[]]]; simpl; try discriminate; reflexivity.
Qed.

(** ** Instances of the conditional statements *)

Lemma suggested_date_never_null_nor_past_witness :
  wf_frame sample_report /\
  has_col DAYS_UNTIL_OUT sample_report = true /\
  add_suggested_date 20000 20000 sample_report 5 = Ok sample_derived /\
  (0 < List.length (rows sample_derived))%nat /\
  exists c d,
    cell sample_report DAYS_UNTIL_OUT 0 = Some c /\
    cell sample_derived SUGGESTED_DATE 0 = Some (Date d) /\
    d = Z.max 20000 (20000 + (rounded_or_zero c - 5)) /\
    20000 <= d.
Proof.
  split; [exact sample_report_wf|].
  split; [reflexivity|]. split; [reflexivity|]. split; [simpl; lia|].
  apply (suggested_date_never_null_nor_past 20000 20000 sample_report 5).
  - exact sample_report_wf.
  - reflexivity.
  - reflexivity.
  - simpl. lia.
Defined.



Lemma kpis_summarise_view_witness :
  columns tenths_derived <> [] /\
  kpis float_sum float_mean tenths_derived = Ok (mkKpis 3 1 13 0) /\
  total_items (mkKpis 3 1 13 0) = Z.of_nat (List.length (rows tenths_derived)) /\
  need_reorder (mkKpis 3 1 13 0)
    = Z.of_nat (List.length (filter (status_is (columns tenths_derived) REORDER_SOON)
                                    (rows tenths_derived))) /\
  (non_missing_numbers (column_values tenths_derived DAYS_UNTIL_OUT) = [] ->
     avg_days (mkKpis 3 1 13 0) = 0) /\
  (non_missing_numbers (column_values tenths_derived DAYS_UNTIL_OUT) <> [] ->
     exists m, float_mean (column_values tenths_derived DAYS_UNTIL_OUT) = Finite m /\
               rounds_to m (avg_days (mkKpis 3 1 13 0))) /\
  (rows tenths_derived <> [] ->
     exists t, float_sum (column_values tenths_derived SUGGESTED_QTY) = Finite t /\
               rounds_to t (total_qty (mkKpis 3 1 13 0))) /\
  (rows tenths_derived = [] -> mkKpis 3 1 13 0 = mkKpis 0 0 0 0).
Proof.
  split; [discriminate|]. split; [vm_compute; reflexivity|].
  apply (kpis_summarise_view float_sum float_mean tenths_derived (mkKpis 3 1 13 0)).
  - discriminate.
  - vm_compute. reflexivity.
Defined.

Lemma filtering_idempotent_and_order_free_witness :
  apply_criteria plain_str literal_search sample_derived status_criteria
  = Ok (take_rows [true; false] sample_derived) /\
  apply_criteria plain_str literal_search
    (take_rows [true; false] sample_derived) status_criteria
  = Ok (take_rows [true; false] sample_derived).
Proof.
  split; [reflexivity|].
  refine (proj1 (filtering_idempotent_and_order_free plain_str literal_search
                   sample_derived status_criteria _ _)).
  reflexivity.
Defined.

(** * Further properties *)

(** ** The deriver as a table transformation *)

Lemma index_of_app_other name n labels :
  name <> n -> index_of name (labels ++ [n]) = index_of name labels.
Proof.
  intros Hne. induction labels as [|c labels IH]; simpl.
  - destruct (String.eqb_spec n name); [congruence | reflexivity].
  - destruct (String.eqb c name); [reflexivity|]. rewrite IH. reflexivity.
Qed.

Lemma set_nth_length {A : Type} j (v : A) l :
  List.length (set_nth j v l) = List.length l.
Proof.
  revert l; induction j as [|j IH]; intros [|a l]; simpl; auto.
Qed.

Lemma set_nth_other {A : Type} j k (v : A) l :
  j <> k -> nth_error (set_nth j v l) k = nth_error l k.
Proof.
  revert k l; induction j as [|j IH]; intros [|k] [|a l] H; simpl; auto; try lia.
Qed.

Lemma set_nth_twice {A : Type} j (v : A) l :
  set_nth j v (set_nth j v l) = set_nth j v l.
Proof.
  revert l; induction j as [|j IH]; intros [|a l]; simpl; auto.
  f_equal. apply IH.
Qed.

Lemma set_nth_snoc {A : Type} (v : A) l :
  set_nth (List.length l) v (l ++ [v]) = l ++ [v].
Proof.
  induction l as [|a l IH]; simpl; auto. f_equal. exact IH.
Qed.

Lemma index_of_distinct a b labels j k :
  a <> b -> index_of a labels = Some j -> index_of b labels = Some k -> j <> k.
Proof.
  intros Hab Hj Hk E. subst k.
  apply index_of_nth in Hj, Hk. congruence.
Qed.

Lemma set_col_columns df name vals :
  columns (set_col df name vals)
  = if has_col name df then columns df else columns df ++ [name].
Proof.
  unfold set_col, has_col. destruct (index_of name (columns df)); reflexivity.
Qed.

Lemma set_col_wf df name vals :
  wf_frame df -> wf_frame (set_col df name vals).
Proof.
  unfold wf_frame, set_col. intros W.
  destruct (index_of name (columns df)) as [j|]; simpl;
    apply Forall_forall; intros r Hr; apply in_map_iff in Hr;
    destruct Hr as ([r0 v] & <- & Hin); apply in_combine_l in Hin;
    rewrite Forall_forall in W; specialize (W _ Hin); simpl.
  - rewrite set_nth_length. exact W.
  - rewrite !length_app, W. reflexivity.
Qed.

Lemma nth_error_combine_eq {A B : Type} (l : list A) (l' : list B) i :
  List.length l' = List.length l ->
  nth_error (combine l l') i =
  match nth_error l i, nth_error l' i with
  | Some a, Some b => Some (a, b)
  | _, _ => None
  end.
Proof.
  revert l' i; induction l as [|a l IH]; intros [|b l'] [|i] H; simpl in *;
    try lia; auto.
Qed.

(** Writing one column leaves the cells under every other label alone. *)
Lemma set_col_other_cell df n vals name i :
  wf_frame df ->
  List.length vals = List.length (rows df) ->
  name <> n ->
  cell (set_col df n vals) name i = cell df name i.
Proof.
  intros W Hlen Hne. unfold cell, set_col.
  destruct (index_of n (columns df)) as [j|] eqn:Hj; simpl.
  - destruct (index_of name (columns df)) as [k|] eqn:Hk; [|reflexivity].
    rewrite nth_error_map, (nth_error_combine_eq _ _ _ Hlen).
    destruct (nth_error (rows df) i) as [r|] eqn:Hr; [|reflexivity].
    destruct (nth_error vals i) as [v|] eqn:Hv.
    + simpl. apply set_nth_other.
      apply (index_of_distinct n name (columns df)); auto.
    + apply nth_error_None in Hv.
      assert (i < List.length (rows df))%nat by (apply nth_error_Some; congruence).
      lia.
  - rewrite (index_of_app_other _ _ _ Hne).
    destruct (index_of name (columns df)) as [k|] eqn:Hk; [|reflexivity].
    rewrite nth_error_map, (nth_error_combine_eq _ _ _ Hlen).
    destruct (nth_error (rows df) i) as [r|] eqn:Hr; [|reflexivity].
    destruct (nth_error vals i) as [v|] eqn:Hv.
    + simpl. apply nth_error_app1.
      rewrite (wf_row _ _ _ W Hr). eapply index_of_lt; eauto.
    + apply nth_error_None in Hv.
      assert (i < List.length (rows df))%nat by (apply nth_error_Some; congruence).
      lia.
Qed.

Lemma add_suggested_date_vals base today data buffer r :
  has_col DAYS_UNTIL_OUT data = true ->
  add_suggested_date base today data buffer = Ok r ->
  exists vals, r = set_col data SUGGESTED_DATE vals /\
               List.length vals = List.length (rows data).
Proof.
  unfold add_suggested_date. intros -> H. simpl in H.
  inv_bind H. inv_bind H. inv_bind H. inversion H; subst; clear H.
  eexists. split; [reflexivity|].
  rewrite length_map, (mapM_length _ _ _ Hv1), (mapM_length _ _ _ Hv0).
  eapply get_col_length; eauto.
Qed.

(** X1. The deriver only writes the Suggested Reorder Date column: it keeps
    the number of rows and the shape of the table, adds at most that one
    label at the end of the columns, and leaves the cell under every other
    label in every row as it was. *)
Theorem add_suggested_date_frame base today data buffer r :
  wf_frame data ->
  add_suggested_date base today data buffer = Ok r ->
  wf_frame r /\
  List.length (rows r) = List.length (rows data) /\
  (columns r = columns data \/ columns r = columns data ++ [SUGGESTED_DATE]) /\
  forall name i, name <> SUGGESTED_DATE -> cell r name i = cell data name i.
Proof.
  intros W H.
  destruct (has_col DAYS_UNTIL_OUT data) eqn:Hh.
  - destruct (add_suggested_date_vals _ _ _ _ _ Hh H) as (vals & -> & Hlen).
    split; [apply set_col_wf; exact W|].
    split; [apply set_col_rows; exact Hlen|].
    split.
    + rewrite set_col_columns. destruct (has_col SUGGESTED_DATE data); auto.
    + intros name i Hne. apply set_col_other_cell; auto.
  - rewrite (add_suggested_date_absent _ _ _ _ Hh) in H. inversion H; subst.
    auto.
Qed.

Lemma clip_to_mono today d d' : d <= d' -> clip_to today d <= clip_to today d'.
Proof.
  unfold clip_to. intros H.
  destruct (Z.ltb_spec d today), (Z.ltb_spec d' today); lia.
Qed.

Lemma cell_some_lt df name i c :
  cell df name i = Some c -> (i < List.length (rows df))%nat.
Proof.
  unfold cell. destruct (index_of name (columns df)); [|discriminate].
  destruct (nth_error (rows df) i) eqn:E; [|discriminate].
  intros _. apply nth_error_Some. congruence.
Qed.

(** X2. With both clock readings on the same day, a row whose rounded Days
    Until Out does not exceed the buffer gets today's date: the shifted date
    would lie in the past or on today, and is clipped. *)
Theorem suggested_date_clipped today data buffer r i c :
  wf_frame data ->
  add_suggested_date today today data buffer = Ok r ->
  cell data DAYS_UNTIL_OUT i = Some c ->
  rounded_or_zero c <= buffer ->
  cell r SUGGESTED_DATE i = Some (Date today).
Proof.
  intros W H Hc Hle.
  rewrite (add_suggested_date_cell _ _ _ _ _ _ _ W H Hc).
  unfold clip_to. destruct (Z.ltb_spec (today + (rounded_or_zero c - buffer)) today);
    [reflexivity|]. do 2 f_equal. lia.
Qed.

(** X3. A larger buffer never gives a later date: for the same table and the
    same clock, the date derived with buffer [b'] is not after the one
    derived with a smaller buffer [b], row by row.  Buffers of either sign
    are taken. *)
Theorem larger_buffer_never_later base today data b b' r r' i d d' :
  wf_frame data ->
  b <= b' ->
  add_suggested_date base today data b = Ok r ->
  add_suggested_date base today data b' = Ok r' ->
  cell r SUGGESTED_DATE i = Some (Date d) ->
  cell r' SUGGESTED_DATE i = Some (Date d') ->
  d' <= d.
Proof.
  intros W Hb H H' Hd Hd'.
  destruct (has_col DAYS_UNTIL_OUT data) eqn:Hh.
  - pose proof (cell_some_lt _ _ _ _ Hd) as Hi.
    rewrite (add_suggested_date_rows _ _ _ _ _ H) in Hi.
    destruct (cell_defined _ _ _ W Hh Hi) as (c & Hc).
    rewrite (add_suggested_date_cell _ _ _ _ _ _ _ W H Hc) in Hd.
    rewrite (add_suggested_date_cell _ _ _ _ _ _ _ W H' Hc) in Hd'.
    inversion Hd; inversion Hd'; subst. apply clip_to_mono. lia.
  - rewrite (add_suggested_date_absent _ _ _ _ Hh) in H.
    rewrite (add_suggested_date_absent _ _ _ _ Hh) in H'.
    inversion H; inversion H'; subst. rewrite Hd in Hd'. inversion Hd'. lia.
Qed.

Lemma set_nth_nth_other {A : Type} j k (v d : A) l :
  j <> k -> nth k (set_nth j v l) d = nth k l d.
Proof.
  revert k l; induction j as [|j IH]; intros [|k] [|a l] H; simpl; auto; try lia.
Qed.

Lemma get_col_set_col_other df n vals name :
  wf_frame df ->
  List.length vals = List.length (rows df) ->
  name <> n ->
  get_col (set_col df n vals) name = get_col df name.
Proof.
  intros W Hlen Hne. unfold get_col, set_col. unfold wf_frame in W.
  destruct (index_of n (columns df)) as [j|] eqn:Hj; simpl.
  - destruct (index_of name (columns df)) as [k|] eqn:Hk; [|reflexivity].
    f_equal. assert (Hjk : j <> k) by (apply (index_of_distinct n name (columns df)); auto).
    clear W. revert vals Hlen. induction (rows df) as [|r rs IH]; intros [|v vals] Hlen;
      simpl in *; try lia; auto.
    rewrite set_nth_nth_other by exact Hjk. f_equal. apply IH. lia.
  - rewrite (index_of_app_other _ _ _ Hne).
    destruct (index_of name (columns df)) as [k|] eqn:Hk; [|reflexivity].
    f_equal. apply index_of_lt in Hk.
    revert vals Hlen. induction W as [|r rs Hr _ IH]; intros [|v vals] Hlen;
      simpl in *; try lia; auto.
    rewrite app_nth1 by lia. f_equal. apply IH. lia.
Qed.

Lemma set_col_twice df n vals :
  wf_frame df ->
  List.length vals = List.length (rows df) ->
  set_col (set_col df n vals) n vals = set_col df n vals.
Proof.
  intros W Hlen. unfold set_col at 1. rewrite set_col_columns. unfold has_col.
  unfold set_col. unfold wf_frame in W.
  destruct (index_of n (columns df)) as [j|] eqn:Hj; simpl.
  - rewrite Hj. f_equal. clear W.
    revert vals Hlen. induction (rows df) as [|r rs IH]; intros [|v vals] Hlen;
      simpl in *; try lia; auto.
    rewrite set_nth_twice. f_equal. apply IH. lia.
  - rewrite (index_of_app_new _ _ Hj). f_equal.
    revert vals Hlen. induction W as [|r rs Hr _ IH]; intros [|v vals] Hlen;
      simpl in *; try lia; auto.
    f_equal; [| apply IH; lia].
    rewrite <- Hr. apply set_nth_snoc.
Qed.

Lemma has_col_set_col_other df n vals name :
  name <> n -> has_col name (set_col df n vals) = has_col name df.
Proof.
  intros Hne. unfold has_col. rewrite set_col_columns. unfold has_col.
  destruct (index_of n (columns df)); [reflexivity|].
  rewrite (index_of_app_other _ _ _ Hne). reflexivity.
Qed.

(** X4. Deriving twice is deriving once: run again on its own result, with
    the same clock and buffer, the deriver returns that result unchanged (the
    column is overwritten in place with the same dates, not appended a second
    time). *)
Theorem add_suggested_date_idempotent base today data buffer r :
  wf_frame data ->
  add_suggested_date base today data buffer = Ok r ->
  add_suggested_date base today r buffer = Ok r.
Proof.
  intros W H.
  destruct (has_col DAYS_UNTIL_OUT data) eqn:Hh.
  - unfold add_suggested_date in H. rewrite Hh in H. simpl in H.
    inv_bind H. inv_bind H. inv_bind H. inversion H; subst r; clear H.
    rename v into col, v0 into days, v1 into shifted.
    set (vals := map (fun d => Date (clip_to today d)) shifted).
    assert (Hlen : List.length vals = List.length (rows data)).
    { unfold vals. rewrite length_map, (mapM_length _ _ _ Hv1), (mapM_length _ _ _ Hv0).
      eapply get_col_length; eauto. }
    assert (Hne : DAYS_UNTIL_OUT <> SUGGESTED_DATE) by discriminate.
    unfold add_suggested_date.
    rewrite (has_col_set_col_other _ _ _ _ Hne), Hh. simpl.
    rewrite (get_col_set_col_other _ _ _ _ W Hlen Hne), Hv. simpl.
    rewrite Hv0. simpl. rewrite Hv1. simpl.
    f_equal. apply set_col_twice; assumption.
  - rewrite (add_suggested_date_absent _ _ _ _ Hh) in H. inversion H; subst.
    apply add_suggested_date_absent. exact Hh.
Qed.

(** ** The view as a row filter *)

Lemma keep_map_filter {A : Type} (P : A -> bool) (l : list A) :
  keep (map P l) l = filter P l.
Proof.
  induction l as [|a l IH]; simpl; auto. destruct (P a); rewrite IH; reflexivity.
Qed.

Lemma and_rows_map {A : Type} (P Q : A -> bool) (l : list A) :
  and_rows (map P l) (map Q l) = map (fun a => P a && Q a) l.
Proof.
  unfold and_rows. induction l as [|a l IH]; simpl; auto. f_equal. exact IH.
Qed.

Lemma mapM_as_map {A B : Type} (g : A -> Result B) (p : A -> B) l m :
  (forall a b, g a = Ok b -> b = p a) ->
  mapM g l = Ok m -> m = map p l.
Proof.
  intros Hg. revert m; induction l as [|a l IH]; simpl; intros m H.
  - inversion H; reflexivity.
  - inv_bind H. inv_bind H. inversion H; subst. f_equal; auto.
Qed.

Lemma get_col_at_label df name col :
  get_col df name = Ok col -> col = map (at_label (columns df) name) (rows df).
Proof.
  unfold get_col, at_label. destruct (index_of name (columns df)); [|discriminate].
  intros H; inversion H; reflexivity.
Qed.

Lemma mask_and_reads_as {A : Type} (l : list A) Q M P :
  reads_as l M P ->
  mask_and (MRows (map Q l)) M = MRows (map (fun a => Q a && P a) l).
Proof.
  intros [[-> HP] | ->]; simpl; f_equal.
  - apply map_ext. intros a. rewrite HP. symmetry. apply andb_true_r.
  - apply and_rows_map.
Qed.

Lemma days_le_passes t a b : days_le t a = Ok b -> b = passes_days t a.
Proof. destruct a; simpl; intros E; inversion E; reflexivity. Qed.

Lemma date_between_passes x y a b :
  date_between x y a = Ok b -> b = passes_dates (Some (AsList [x; y])) a.
Proof. destruct a; simpl; intros E; inversion E; reflexivity. Qed.

Section RowFilter.

Variable astype_str : Cell -> string.
Variable str_contains : string -> Result (string -> bool).

Lemma mask_status_reads_as df choice M :
  mask_status df choice = Ok M ->
  reads_as (rows df) M
    (fun r => String.eqb choice "All"
              || cell_eqb (fillna_blank (at_label (columns df) STATUS r)) (Str choice)).
Proof.
  unfold mask_status. destruct (String.eqb choice "All"); intros H.
  - left. inversion H. split; reflexivity.
  - right. inv_bind H. inversion H; subst.
    rewrite (get_col_at_label _ _ _ Hv), map_map. reflexivity.
Qed.

Lemma mask_days_reads_as df t M :
  mask_days df t = Ok M ->
  reads_as (rows df) M (fun r => passes_days t (at_label (columns df) DAYS_UNTIL_OUT r)).
Proof.
  unfold mask_days. intros H. inv_bind H. inv_bind H. inversion H; subst.
  right. f_equal.
  rewrite (mapM_as_map _ _ _ _ (days_le_passes t) Hv0).
  rewrite (get_col_at_label _ _ _ Hv), map_map. reflexivity.
Qed.

Lemma mask_date_reads_as df dr M :
  mask_date df dr = Ok M ->
  reads_as (rows df) M
    (fun r => negb (has_label LAST_DUE (columns df))
              || passes_dates dr (at_label (columns df) LAST_DUE r)).
Proof.
  unfold mask_date, has_col, has_label.
  destruct (index_of LAST_DUE (columns df)) as [j|] eqn:Hj; simpl; intros H;
    [| left; inversion H; split; reflexivity].
  destruct dr as [[[|a [|b [|? ?]]]| |]|];
    try (left; inversion H; split; reflexivity).
  right. inv_bind H. inv_bind H. inversion H; subst. f_equal.
  rewrite (mapM_as_map _ _ _ _ (date_between_passes a b) Hv0).
  rewrite (get_col_at_label _ _ _ Hv), map_map. reflexivity.
Qed.

(** For fixed criteria and an empty search string, the view is the row
    filter of the table. *)
Lemma apply_criteria_filter df cr f :
  query cr = "" ->
  apply_criteria astype_str str_contains df cr = Ok f ->
  columns f = columns df /\
  rows f = filter (row_passes astype_str (columns df) cr) (rows df).
Proof.
  intros Hq H. unfold apply_criteria in H.
  inv_bind H. inv_bind H. inv_bind H. inv_bind H. inv_bind H. inv_bind H.
  rename v into mc, v0 into mi, v1 into ms, v2 into md, v3 into mdate, v4 into msearch.
  unfold mask_search in Hv4. rewrite Hq in Hv4. simpl in Hv4.
  inversion Hv4; subst msearch; clear Hv4.
  unfold mask_customer in Hv. inv_bind Hv. inversion Hv; subst mc; clear Hv.
  unfold mask_item in Hv0. inv_bind Hv0. inversion Hv0; subst mi; clear Hv0.
  rewrite (get_col_at_label _ _ _ Hv4), (get_col_at_label _ _ _ Hv), !map_map in H.
  unfold combine_masks in H.
  rewrite (mask_and_reads_as _ _ _ _ (mask_status_reads_as _ _ _ Hv1)) in H.
  simpl mask_and in H at 4. rewrite and_rows_map in H.
  rewrite (mask_and_reads_as _ _ _ _ (mask_days_reads_as _ _ _ Hv2)) in H.
  rewrite (mask_and_reads_as _ _ _ _ (mask_date_reads_as _ _ _ Hv3)) in H.
  rewrite mask_and_true_r in H. simpl in H. inversion H; subst f; clear H.
  simpl. split; [reflexivity|].
  rewrite keep_map_filter. apply filter_ext. intros r. reflexivity.
Qed.

Lemma sidebar_fields df w cr :
  sidebar astype_str df w = Ok cr ->
  query cr = search_text w /\
  status_choice cr = status_radio w /\
  (sel_all_cust w = false -> customers cr = cust_picked w) /\
  (sel_all_items w = false -> items cr = items_picked w).
Proof.
  unfold sidebar. intros H.
  inv_bind H. inv_bind H. inv_bind H. inv_bind H. inv_bind H. inv_bind H.
  inv_bind H. inv_bind H. inversion H; subst cr; clear H. simpl.
  split; [reflexivity|]. split; [reflexivity|]. split; intros E.
  - unfold pick_customers in Hv. inv_bind Hv. inv_bind Hv.
    rewrite E in Hv. inversion Hv; reflexivity.
  - unfold pick_items in Hv1. inv_bind Hv1.
    rewrite E in Hv1. inversion Hv1; reflexivity.
Qed.

Lemma filtered_filter df w f :
  search_text w = "" ->
  filtered astype_str str_contains df w = Ok f ->
  exists cr,
    sidebar astype_str df w = Ok cr /\
    columns f = columns df /\
    rows f = filter (row_passes astype_str (columns df) cr) (rows df).
Proof.
  unfold filtered. intros Hq H. inv_bind H. exists v. split; [assumption|].
  apply apply_criteria_filter; [|assumption].
  rewrite <- Hq. apply (sidebar_fields _ _ _ Hv).
Qed.

(** X5. With an empty search box the view consists of exactly the rows of
    the table that pass the tests of the sidebar, in table order and under
    the table's columns: the vectorised masks of lines 68-117 amount to a
    row-by-row filter.  A row is in the view if and only if it is a row of
    the table that passes. *)
Theorem view_is_row_filter df w f :
  search_text w = "" ->
  filtered astype_str str_contains df w = Ok f ->
  exists cr,
    sidebar astype_str df w = Ok cr /\
    columns f = columns df /\
    rows f = filter (row_passes astype_str (columns df) cr) (rows df) /\
    forall r, In r (rows f) <->
              In r (rows df) /\ row_passes astype_str (columns df) cr r = true.
Proof.
  intros Hq H. destruct (filtered_filter _ _ _ Hq H) as (cr & Hs & Hc & Hr).
  exists cr. split; [exact Hs|]. split; [exact Hc|]. split; [exact Hr|].
  intros r. rewrite Hr. apply filter_In.
Qed.

Lemma filter_none {A : Type} (P : A -> bool) (l : list A) :
  (forall a, P a = false) -> filter P l = [].
Proof.
  intros H. induction l as [|a l IH]; simpl; auto. rewrite H. exact IH.
Qed.

(** X6. A categorical filter with select-all unchecked and nothing selected
    excludes every row (empty search box): the view has no row and the four
    metrics are 0. *)
Theorem empty_selection_empties_view series_sum series_mean df w f :
  search_text w = "" ->
  (sel_all_cust w = false /\ cust_picked w = [])
  \/ (sel_all_items w = false /\ items_picked w = []) ->
  filtered astype_str str_contains df w = Ok f ->
  rows f = [] /\ kpis series_sum series_mean f = Ok (mkKpis 0 0 0 0).
Proof.
  intros Hq Hsel H. unfold filtered in H. inv_bind H. rename v into cr.
  destruct (sidebar_fields _ _ _ Hv) as (Eq & _ & Ec & Ei).
  assert (Hrows : rows f = []).
  { rewrite (proj2 (apply_criteria_filter _ _ _ (eq_trans Eq Hq) H)).
    apply filter_none. intros r. unfold row_passes.
    destruct Hsel as [[Hs Hp]|[Hs Hp]].
    - rewrite (Ec Hs), Hp. reflexivity.
    - rewrite (Ei Hs), Hp. simpl. rewrite !andb_false_r. reflexivity. }
  split; [exact Hrows|].
  unfold kpis, frame_empty. rewrite Hrows. reflexivity.
Qed.

End RowFilter.

(** ** Consequences for the rows of the view *)

Lemma filter_filter {A : Type} (P Q : A -> bool) (l : list A) :
  filter P (filter Q l) = filter (fun a => Q a && P a) l.
Proof.
  induction l as [|a l IH]; simpl; auto.
  destruct (Q a); simpl; [destruct (P a)|]; rewrite IH; reflexivity.
Qed.

Lemma filter_all {A : Type} (P : A -> bool) (l : list A) :
  (forall a, In a l -> P a = true) -> filter P l = l.
Proof.
  induction l as [|a l IH]; simpl; intros H; auto.
  rewrite (H a (or_introl eq_refl)). f_equal. apply IH. auto.
Qed.

Lemma filter_none_in {A : Type} (P : A -> bool) (l : list A) :
  (forall a, In a l -> P a = false) -> filter P l = [].
Proof.
  induction l as [|a l IH]; simpl; intros H; auto.
  rewrite (H a (or_introl eq_refl)). apply IH. auto.
Qed.

Lemma frame_ext (a b : DataFrame) :
  columns a = columns b -> rows a = rows b -> a = b.
Proof. destruct a, b; simpl; intros -> ->; reflexivity. Qed.

Lemma kpis_counts series_sum series_mean f k :
  columns f <> [] ->
  kpis series_sum series_mean f = Ok k ->
  total_items k = Z.of_nat (List.length (rows f)) /\
  need_reorder k
  = Z.of_nat (List.length (filter (status_is (columns f) REORDER_SOON) (rows f))).
Proof.
  intros Hc H. unfold kpis in H. destruct (frame_empty f) eqn:Hfe.
  - assert (Hr : rows f = []).
    { unfold frame_empty in Hfe. destruct (rows f); [reflexivity|].
      destruct (columns f); [congruence | discriminate]. }
    inversion H; subst. rewrite Hr. simpl. auto.
  - inv_bind H. inv_bind H. inv_bind H. inv_bind H. inv_bind H. inv_bind H.
    inversion H; subst; clear H. simpl. split; [reflexivity|].
    apply count_status. assumption.
Qed.

Lemma status_is_at_label labels label r :
  status_is labels label r = cell_eqb (at_label labels STATUS r) (Str label).
Proof.
  unfold status_is, at_label. destruct (index_of STATUS labels); [|reflexivity].
  destruct (nth n r NA); reflexivity.
Qed.

Lemma fillna_eqb_str c s :
  cell_eqb (fillna_blank c) (Str s) = true -> s <> BLANK -> c = Str s.
Proof.
  destruct c; unfold fillna_blank, cell_eqb; intros H Hne; try discriminate;
    apply String.eqb_eq in H; congruence.
Qed.

Section ViewRows.

Variable astype_str : Cell -> string.
Variable str_contains : string -> Result (string -> bool).

(** X7. With the status radio on a value other than All (and an empty
    search box), every row of the view holds exactly that status; so under
    Reorder Soon the Need Reorder metric equals Total Items, and under any
    other status it is 0. *)
Theorem status_filter_fixes_status series_sum series_mean df w f :
  search_text w = "" ->
  status_radio w <> "All" ->
  status_radio w <> BLANK ->
  filtered astype_str str_contains df w = Ok f ->
  (forall r, In r (rows f) -> at_label (columns f) STATUS r = Str (status_radio w)) /\
  (forall k, kpis series_sum series_mean f = Ok k ->
     need_reorder k = if String.eqb (status_radio w) REORDER_SOON
                      then total_items k else 0).
Proof.
  intros Hq Hall Hblank H.
  destruct (filtered_filter astype_str str_contains df w f Hq H)
    as (cr & Hs & Hcols & Hrows).
  destruct (sidebar_fields _ _ _ _ Hs) as (_ & Est & _).
  assert (Hst : forall r, In r (rows f) ->
                          at_label (columns f) STATUS r = Str (status_radio w)).
  { intros r Hin. rewrite Hrows in Hin. apply filter_In in Hin.
    destruct Hin as (_ & Hp). unfold row_passes in Hp.
    rewrite !andb_true_iff in Hp. destruct Hp as ((((_ & Hp) & _) & _) & _).
    rewrite Est in Hp. rewrite Hcols.
    apply orb_true_iff in Hp. destruct Hp as [Hp|Hp].
    - apply String.eqb_eq in Hp. contradiction.
    - apply fillna_eqb_str; assumption. }
  split; [exact Hst|].
  intros k Hk.
  destruct (kpis_counts _ _ _ _ (view_has_columns _ _ _ _ _ H) Hk) as (Ht & Hn).
  rewrite Hn. destruct (String.eqb_spec (status_radio w) REORDER_SOON) as [E|E].
  - rewrite Ht. do 2 f_equal. apply filter_all. intros r Hin.
    rewrite status_is_at_label, (Hst r Hin), E. apply String.eqb_refl.
  - rewrite filter_none_in; [reflexivity|]. intros r Hin.
    rewrite status_is_at_label, (Hst r Hin).
    apply String.eqb_neq. exact E.
Qed.

Lemma andb_tighten a p p' d :
  (p = true -> p' = true) -> (a && p' && d) && p = a && p && d.
Proof.
  destruct a, p, p', d; simpl; intros H; auto; discriminate (H eq_refl).
Qed.

Lemma passes_days_mono t t' c :
  t <= t' -> passes_days t c = true -> passes_days t' c = true.
Proof.
  intros Ht. destruct c; simpl; auto. intros H.
  apply Qle_bool_iff in H. apply Qle_bool_iff.
  eapply Qle_trans; [exact H|]. rewrite <- Zle_Qle. exact Ht.
Qed.

(** X8. Lowering the slider only removes rows (empty search box): the view
    under the threshold [t] is the view under a higher threshold [t'] with
    the rows above [t] taken out, rows without a Days Until Out value staying
    in both. *)
Theorem lower_slider_filters_higher_view df cr t t' f f' :
  query cr = "" ->
  t <= t' ->
  apply_criteria astype_str str_contains df (with_slider cr t) = Ok f ->
  apply_criteria astype_str str_contains df (with_slider cr t') = Ok f' ->
  rows f = filter (fun r => passes_days t (at_label (columns df) DAYS_UNTIL_OUT r))
                  (rows f') /\
  (forall r, In r (rows f) -> In r (rows f')).
Proof.
  intros Hq Ht H H'.
  destruct (apply_criteria_filter _ _ _ (with_slider cr t) _ Hq H) as (_ & Hr).
  destruct (apply_criteria_filter _ _ _ (with_slider cr t') _ Hq H') as (_ & Hr').
  assert (E : rows f = filter (fun r => passes_days t
                         (at_label (columns df) DAYS_UNTIL_OUT r)) (rows f')).
  { rewrite Hr, Hr', filter_filter. apply filter_ext. intros r.
    unfold row_passes, with_slider. simpl.
    symmetry. apply andb_tighten. apply passes_days_mono. exact Ht. }
  split; [exact E|].
  intros r Hin. rewrite E in Hin. apply filter_In in Hin. tauto.
Qed.

Lemma apply_criteria_on_rows df cr f m0 :
  query cr = "" ->
  apply_criteria astype_str str_contains df cr = Ok f ->
  exists g, apply_criteria astype_str str_contains (take_rows m0 df) cr = Ok g.
Proof.
  intros Hq H. unfold apply_criteria in *.
  inv_bind H. inv_bind H. inv_bind H. inv_bind H. inv_bind H. inv_bind H.
  rename v into mc, v0 into mi, v1 into ms, v2 into md, v3 into mdate, v4 into msearch.
  destruct (mask_search_cases _ _ _ _ _ Hv4) as [[_ ->]|[Hne _]]; [|congruence].
  destruct (combine_masks_rows mc ms mi md mdate
              (mask_status_rowish _ _ _ Hv1) (mask_days_rowish _ _ _ Hv2)
              (mask_date_rowish _ _ _ Hv3)) as (m & Hm).
  rewrite (mask_customer_keep _ _ _ m0 Hv). simpl.
  rewrite (mask_item_keep _ _ _ _ m0 Hv0). simpl.
  rewrite (mask_status_keep _ _ _ m0 Hv1). simpl.
  rewrite (mask_days_keep _ _ _ m0 Hv2). simpl.
  rewrite (mask_date_keep _ _ _ m0 Hv3). simpl.
  unfold mask_search. rewrite Hq. simpl.
  change MTrue with (restrict m0 MTrue).
  rewrite combine_masks_restrict, Hm. simpl. eauto.
Qed.

(** X9. With empty search strings, filtering a view again with other
    criteria succeeds and composes: first [cr1] then [cr2] gives the same
    table as first [cr2] then [cr1], namely the rows of the table that pass
    both sets of tests. *)
Theorem successive_filters_commute df cr1 cr2 f1 f2 :
  query cr1 = "" ->
  query cr2 = "" ->
  apply_criteria astype_str str_contains df cr1 = Ok f1 ->
  apply_criteria astype_str str_contains df cr2 = Ok f2 ->
  exists g,
    apply_criteria astype_str str_contains f1 cr2 = Ok g /\
    apply_criteria astype_str str_contains f2 cr1 = Ok g /\
    columns g = columns df /\
    rows g = filter (fun r => row_passes astype_str (columns df) cr1 r
                              && row_passes astype_str (columns df) cr2 r) (rows df).
Proof.
  intros Hq1 Hq2 H1 H2.
  destruct (apply_criteria_filter _ _ _ _ _ Hq1 H1) as (Hc1 & Hr1).
  destruct (apply_criteria_filter _ _ _ _ _ Hq2 H2) as (Hc2 & Hr2).
  destruct (apply_criteria_rows _ _ _ _ _ Hq1 H1) as (m1 & E1 & _).
  destruct (apply_criteria_rows _ _ _ _ _ Hq2 H2) as (m2 & E2 & _).
  destruct (apply_criteria_on_rows _ _ _ m1 Hq2 H2) as (g1 & G1).
  destruct (apply_criteria_on_rows _ _ _ m2 Hq1 H1) as (g2 & G2).
  rewrite <- E1 in G1. rewrite <- E2 in G2.
  destruct (apply_criteria_filter _ _ _ _ _ Hq2 G1) as (Hcg1 & Hrg1).
  destruct (apply_criteria_filter _ _ _ _ _ Hq1 G2) as (Hcg2 & Hrg2).
  rewrite Hc1, Hr1, filter_filter in Hrg1.
  rewrite Hc2, Hr2, filter_filter in Hrg2.
  assert (Eg : g2 = g1).
  { apply frame_ext; [congruence|]. rewrite Hrg1, Hrg2.
    apply filter_ext. intros r. apply andb_comm. }
  subst g2. exists g1. repeat split; try assumption. congruence.
Qed.

Lemma filter_length_le {A : Type} (P : A -> bool) (l : list A) :
  (List.length (filter P l) <= List.length l)%nat.
Proof.
  induction l as [|a l IH]; simpl; [lia|]. destruct (P a); simpl; lia.
Qed.

(** X10. Whatever the widgets hold, the view has the columns of the table,
    never more rows than the table, and one cell per column in every row
    when the table has. *)
Theorem view_keeps_shape df w f :
  filtered astype_str str_contains df w = Ok f ->
  columns f = columns df /\
  (List.length (rows f) <= List.length (rows df))%nat /\
  (wf_frame df -> wf_frame f).
Proof.
  intros H. split; [eapply filtered_columns; eauto|].
  destruct (String.eqb_spec (search_text w) "") as [Hq|Hq].
  - destruct (filtered_filter _ _ _ _ _ Hq H) as (cr & _ & Hc & Hr).
    split; [rewrite Hr; apply filter_length_le|].
    unfold wf_frame. rewrite Hc, Hr, !Forall_forall.
    intros W r Hin. apply filter_In in Hin. apply W. tauto.
  - rewrite (filtered_search_blank _ _ _ _ _ Hq H). unfold blank_frame. simpl.
    split; [rewrite length_map; lia|].
    unfold wf_frame. simpl. rewrite !Forall_forall.
    intros W r Hin. apply in_map_iff in Hin. destruct Hin as (r0 & <- & Hin).
    rewrite length_map. apply W. exact Hin.
Qed.

End ViewRows.

(** X11. Need Reorder never exceeds Total Items, and neither is negative. *)
Theorem need_reorder_within_total series_sum series_mean f k :
  kpis series_sum series_mean f = Ok k -> 0 <= need_reorder k <= total_items k.
Proof.
  unfold kpis. destruct (frame_empty f); intros H.
  - inversion H; simpl; lia.
  - inv_bind H. inv_bind H. inv_bind H. inv_bind H. inv_bind H. inv_bind H.
    inversion H; subst; clear H. simpl. unfold count_if.
    rewrite <- (get_col_length _ _ _ Hv).
    pose proof (filter_length_le (fun c => cell_eqb c (Str REORDER_SOON)) v). lia.
Qed.


(** ** Detailed records: columns, cells and highlighting *)

Lemma index_of_In name labels :
  In name labels -> exists j, index_of name labels = Some j.
Proof.
  induction labels as [|c labels IH]; simpl; intros H; [contradiction|].
  destruct (String.eqb_spec c name) as [E|E]; [eauto|].
  destruct H as [H|H]; [contradiction|].
  destruct (IH H) as (j & ->). simpl. eauto.
Qed.

Lemma index_of_In_inv name labels j :
  index_of name labels = Some j -> In name labels.
Proof. intros H. eapply nth_error_In. eapply index_of_nth; eauto. Qed.

Lemma remove_at_perm {A : Type} (l : list A) j x :
  nth_error l j = Some x -> Permutation (x :: remove_at j l) l.
Proof.
  unfold remove_at. revert j; induction l as [|a l IH]; intros [|j] H;
    simpl in *; try discriminate.
  - inversion H; subst. reflexivity.
  - etransitivity; [apply perm_swap|]. constructor. apply IH. exact H.
Qed.

Lemma insert_at_perm {A : Type} (l : list A) k x :
  Permutation (insert_at k x l) (x :: l).
Proof.
  unfold insert_at. rewrite <- (firstn_skipn k l) at 3.
  symmetry. apply Permutation_middle.
Qed.

(** Line 149 rearranges the labels; it neither drops nor repeats one. *)
Lemma cols_perm labels : Permutation (cols labels) labels.
Proof.
  unfold cols.
  destruct (index_of DAYS_UNTIL_OUT labels) as [i|]; [|reflexivity].
  destruct (index_of SUGGESTED_DATE labels) as [j|] eqn:Hj; [|reflexivity].
  etransitivity; [apply insert_at_perm|].
  apply remove_at_perm. apply index_of_nth. exact Hj.
Qed.

(** X12. The column order of the Detailed Records table is a rearrangement
    of the view's labels, none dropped or repeated; and when Suggested
    Reorder Date stands somewhere after Days Until Out, as it does once the
    deriver has appended it, it is shown directly after Days Until Out. *)
Theorem cols_rearranges_and_places labels i j :
  index_of DAYS_UNTIL_OUT labels = Some i ->
  index_of SUGGESTED_DATE labels = Some j ->
  (i < j)%nat ->
  Permutation (cols labels) labels /\
  directly_follows DAYS_UNTIL_OUT SUGGESTED_DATE (cols labels) = true.
Proof.
  intros Hi Hj Hlt. split; [apply cols_perm | eapply cols_adjacent; eauto].
Qed.

Lemma nth_map_in {A B : Type} (g : A -> B) (l : list A) k a (d : B) :
  nth_error l k = Some a -> nth k (map g l) d = g a.
Proof.
  revert k; induction l as [|x l IH]; intros [|k] H; simpl in *; try discriminate.
  - inversion H; reflexivity.
  - apply IH. exact H.
Qed.

(** The cell that [filtered[cols]] shows in a row under a label. *)
Lemma reindex_at_label f labels name r :
  In name labels ->
  at_label labels name
    (map (fun n => match index_of n (columns f) with
                   | Some j => nth j r NA
                   | None => NA
                   end) labels)
  = at_label (columns f) name r.
Proof.
  intros Hin. destruct (index_of_In _ _ Hin) as (k & Hk).
  unfold at_label at 1. rewrite Hk.
  rewrite (nth_map_in _ _ _ _ _ (index_of_nth _ _ _ Hk)). reflexivity.
Qed.

(** X13. The Detailed Records table shows the view's own values: it has the
    view's rows in the same order, and in every row the cell under a label
    of the view is the view's cell under that label. *)
Theorem detail_shows_view_cells f d :
  detail f = Some d ->
  List.length (rows d) = List.length (rows f) /\
  forall name i r, In name (columns f) -> nth_error (rows f) i = Some r ->
    exists r', nth_error (rows d) i = Some r' /\
               at_label (columns d) name r' = at_label (columns f) name r.
Proof.
  unfold detail. destruct (frame_empty f); intros H; inversion H; subst d; clear H.
  unfold reindex. simpl. split; [apply length_map|].
  intros name i r Hin Hr. rewrite nth_error_map, Hr. simpl.
  eexists. split; [reflexivity|].
  apply reindex_at_label.
  eapply Permutation_in; [symmetry; apply cols_perm | exact Hin].
Qed.

Lemma get_col_has_col df name col :
  get_col df name = Ok col -> has_col name df = true.
Proof.
  unfold get_col, has_col. destruct (index_of name (columns df)); [reflexivity | discriminate].
Qed.

Lemma is_highlighted_on (r : list Cell) :
  r <> [] -> is_highlighted (map (fun _ => HIGHLIGHT) r) = true.
Proof.
  destruct r; [congruence|]. intros _. unfold is_highlighted.
  cbn [map existsb]. rewrite String.eqb_refl. reflexivity.
Qed.

Lemma is_highlighted_off (r : list Cell) :
  is_highlighted (map (fun _ => "") r) = false.
Proof.
  unfold is_highlighted. induction r as [|c r IH]; simpl; auto.
Qed.

(** X14. The rows highlighted under Detailed Records are the rows counted by
    Need Reorder: styling the table shown succeeds whenever the metrics were
    computed, gives one row of styles per row of the view, and the number of
    highlighted rows equals the Need Reorder metric. *)
Theorem highlighted_rows_match_need_reorder series_sum series_mean f d k :
  detail f = Some d ->
  kpis series_sum series_mean f = Ok k ->
  exists styles,
    styled d = Ok styles /\
    List.length styles = List.length (rows f) /\
    count_if is_highlighted styles = need_reorder k.
Proof.
  unfold detail, kpis. destruct (frame_empty f) eqn:Hfe; [discriminate|].
  intros Hd Hk. inversion Hd; subst d; clear Hd.
  inv_bind Hk. inv_bind Hk. inv_bind Hk. inv_bind Hk. inv_bind Hk. inv_bind Hk.
  inversion Hk; subst k; clear Hk. simpl. rename v into status.
  rewrite (count_status _ _ Hv).
  pose proof (get_col_has_col _ _ _ Hv) as Hs. unfold has_col in Hs.
  destruct (index_of STATUS (columns f)) as [j|] eqn:Hj; [|discriminate].
  assert (Hin : In STATUS (cols (columns f))).
  { eapply Permutation_in; [symmetry; apply cols_perm|].
    eapply index_of_In_inv; eauto. }
  destruct (index_of_In _ _ Hin) as (k & Hk).
  assert (Hne : cols (columns f) <> []) by (destruct (cols (columns f)); [contradiction | discriminate]).
  unfold styled, reindex. simpl.
  exists (map (fun r => if status_is (columns f) REORDER_SOON r
                        then map (fun _ => HIGHLIGHT) (cols (columns f))
                        else map (fun _ => "") (cols (columns f))) (rows f)).
  split; [| split; [apply length_map|]].
  - induction (rows f) as [|r rs IH]; simpl; [reflexivity|].
    rewrite IH. unfold highlight_status at 1. rewrite Hk.
    rewrite (nth_map_in _ _ _ _ _ (index_of_nth _ _ _ Hk)), Hj.
    rewrite !map_map. rewrite status_is_at_label. unfold at_label. rewrite Hj.
    destruct (cell_eqb (nth j r NA) (Str REORDER_SOON)); reflexivity.
  - unfold count_if. f_equal. rewrite filter_map_comm, length_map. f_equal.
    apply filter_ext. intros r.
    destruct (status_is (columns f) REORDER_SOON r).
    + rewrite <- (map_map (fun _ => NA) (fun _ => HIGHLIGHT)).
      apply is_highlighted_on. destruct (cols (columns f)); [congruence | discriminate].
    + rewrite <- (map_map (fun _ => NA) (fun _ => "")). apply is_highlighted_off.
Qed.

(** ** What the page needs and offers *)

Ltac bind_as H a Ha :=
  apply bind_ok in H; destruct H as (a & Ha & H).

Lemma add_suggested_date_has_col base today data buffer r name :
  add_suggested_date base today data buffer = Ok r ->
  name <> SUGGESTED_DATE ->
  has_col name r = has_col name data.
Proof.
  intros H Hne. destruct (has_col DAYS_UNTIL_OUT data) eqn:Hh.
  - unfold add_suggested_date in H. rewrite Hh in H. simpl in H.
    inv_bind H. inv_bind H. inv_bind H. inversion H; subst.
    apply has_col_set_col_other. exact Hne.
  - rewrite (add_suggested_date_absent _ _ _ _ Hh) in H. inversion H; reflexivity.
Qed.

Lemma has_col_same_columns name f df :
  columns f = columns df -> has_col name f = has_col name df.
Proof. unfold has_col. intros ->. reflexivity. Qed.

Section PageNeeds.

Variable astype_str : Cell -> string.
Variable str_contains : string -> Result (string -> bool).

(** X15. The columns a report must have.  A page is produced only if the
    report has a Customer column, an Item or an Item # column and a Days
    Until Out column; and, when the view has a row, a Status and a Suggested
    Order Qty column as well.  Every other run ends in an error. *)
Theorem page_needs_columns series_sum series_mean base today report w up p :
  script astype_str str_contains series_sum series_mean base today report w up = Ok p ->
  has_col CUSTOMER report = true /\
  (has_col "Item" report = true \/ has_col "Item #" report = true) /\
  has_col DAYS_UNTIL_OUT report = true /\
  (rows (page_view p) <> [] ->
   has_col STATUS report = true /\ has_col SUGGESTED_QTY report = true).
Proof.
  unfold script. intros H.
  bind_as H df Hdf. bind_as H view Hview. bind_as H k Hk.
  inversion H; subst p; clear H. simpl.
  assert (Hx : forall name, name <> SUGGESTED_DATE ->
                            has_col name df = true -> has_col name report = true).
  { intros name Hne E. rewrite <- (add_suggested_date_has_col _ _ _ _ _ _ Hdf Hne). exact E. }
  pose proof (filtered_columns _ _ _ _ _ Hview) as Hcols.
  unfold filtered in Hview. bind_as Hview cr Hcr. unfold sidebar in Hcr.
  bind_as Hcr cs Hcs. bind_as Hcr mc Hmc. bind_as Hcr its Hits.
  bind_as Hcr mi Hmi. bind_as Hcr ms Hms. bind_as Hcr t Ht.
  unfold pick_customers in Hcs. bind_as Hcs ccol Hccol.
  unfold pick_items in Hits. bind_as Hits icol Hicol.
  unfold pick_days in Ht. bind_as Ht dcol Hdcol.
  split.
  { apply Hx; [discriminate|]. eapply get_col_has_col; eauto. }
  split.
  { apply get_col_has_col in Hicol. unfold item_col in Hicol.
    destruct (has_col "Item" df) eqn:Ei.
    - left. apply Hx; [discriminate | exact Ei].
    - right. apply Hx; [discriminate | exact Hicol]. }
  split.
  { apply Hx; [discriminate|]. eapply get_col_has_col; eauto. }
  intros Hrows. unfold kpis in Hk.
  assert (Hfe : frame_empty view = false).
  { unfold frame_empty. destruct (rows view); [congruence|].
    rewrite Hcols. unfold get_col in Hccol.
    destruct (columns df); [discriminate | reflexivity]. }
  rewrite Hfe in Hk.
  bind_as Hk status Hstatus. bind_as Hk days Hdays. bind_as Hk avg Havg.
  bind_as Hk qty Hqty.
  split; (apply Hx; [discriminate|]);
    rewrite <- (has_col_same_columns _ _ _ Hcols); eapply get_col_has_col; eauto.
Qed.

End PageNeeds.

Lemma insert_sorted_In_inv x l r y :
  insert_sorted x l = Ok r -> In y r -> y = x \/ In y l.
Proof.
  revert r; induction l as [|c l IH]; simpl; intros r H Hy.
  - inversion H; subst. destruct Hy as [<-|[]]. left; reflexivity.
  - inv_bind H. destruct v.
    + inversion H; subst. destruct Hy as [<-|Hy]; [left; reflexivity | right; exact Hy].
    + inv_bind H. inversion H; subst.
      destruct Hy as [<-|Hy]; [right; left; reflexivity|].
      destruct (IH _ Hv0 Hy) as [->|Hin]; [left; reflexivity | right; right; exact Hin].
Qed.

Lemma py_sorted_In_inv l s y : py_sorted l = Ok s -> In y s -> In y l.
Proof.
  revert s; induction l as [|c l IH]; simpl; intros s H Hy.
  - inversion H; subst. contradiction.
  - inv_bind H. destruct (insert_sorted_In_inv _ _ _ _ H Hy) as [->|Hin];
      [left; reflexivity | right; eauto].
Qed.

(** X16. With select-all checked, the customers the filter works with are
    the customer values of the table: every value of the Customer column,
    a missing one as (Blank), equals one of them, each of them occurs in
    the column, and none of them is a missing value. *)
Theorem customer_choices_are_table_values df w col cs :
  sel_all_cust w = true ->
  get_col df CUSTOMER = Ok col ->
  pick_customers df w = Ok cs ->
  (forall c, In c col -> isin (fillna_blank c) cs = true) /\
  (forall x, In x cs -> exists c, In c col /\ x = fillna_blank c) /\
  ~ In NA cs.
Proof.
  unfold pick_customers. intros Hsel Hcol H. rewrite Hcol in H. simpl in H.
  inv_bind H. rewrite Hsel in H. inversion H; subst cs; clear H.
  assert (Hback : forall x, In x v -> exists c, In c col /\ x = fillna_blank c).
  { intros x Hx. apply (py_sorted_In_inv _ _ _ Hv) in Hx.
    apply unique_acc_In in Hx. apply in_map_iff in Hx.
    destruct Hx as (c & <- & Hc). eauto. }
  split; [| split; [exact Hback|]].
  - intros c Hc. eapply isin_sorted_unique; eauto using cell_eqb_fillna_refl.
    apply in_map. exact Hc.
  - intros Hna. destruct (Hback _ Hna) as (c & _ & E). destruct c; discriminate.
Qed.

(** ** The export and the table on screen *)

(** On a report without a Suggested Reorder Date column the deriver puts the
    new column last, hence after Days Until Out. *)
Lemma add_suggested_date_appended base today report buffer df :
  has_col SUGGESTED_DATE report = false ->
  has_col DAYS_UNTIL_OUT df = true ->
  add_suggested_date base today report buffer = Ok df ->
  exists i j, index_of DAYS_UNTIL_OUT (columns df) = Some i /\
              index_of SUGGESTED_DATE (columns df) = Some j /\ (i < j)%nat.
Proof.
  intros Hs Hd H.
  assert (Hr : has_col DAYS_UNTIL_OUT report = true).
  { rewrite <- (add_suggested_date_has_col _ _ _ _ _ DAYS_UNTIL_OUT H); [exact Hd|].
    discriminate. }
  destruct (add_suggested_date_vals _ _ _ _ _ Hr H) as (vals & -> & _).
  rewrite set_col_columns, Hs.
  unfold has_col in Hs, Hr.
  destruct (index_of DAYS_UNTIL_OUT (columns report)) as [i|] eqn:Hi; [|discriminate].
  destruct (index_of SUGGESTED_DATE (columns report)) eqn:Hj; [discriminate|].
  exists i, (List.length (columns report)).
  split; [rewrite index_of_app_other by discriminate; exact Hi|].
  split; [apply index_of_app_new; exact Hj|].
  eapply index_of_lt; eauto.
Qed.

Section ExportProperties.

Variable astype_str : Cell -> string.
Variable str_contains : string -> Result (string -> bool).

(** C5, as the export is written.  The CSV holds the rows of the filtered
    view and the columns of the working table in the table's own order.  The
    table under Detailed Records holds the same labels, none dropped or
    repeated, rearranged by line 149; there Suggested Reorder Date comes
    directly after Days Until Out whenever it stood after it in the working
    table, as it does when the deriver has added it to a report that had no
    such column. *)
Theorem csv_export_keeps_table_order series_sum series_mean base today report w up df p :
  add_suggested_date base today report 5 = Ok df ->
  script astype_str str_contains series_sum series_mean base today report w up = Ok p ->
  filtered astype_str str_contains df w = Ok (page_view p) /\
  csv_header (csv_bytes p) = columns df /\
  csv_records (csv_bytes p) = rows (page_view p) /\
  (forall d, page_detail p = Some d ->
     columns d = cols (csv_header (csv_bytes p)) /\
     Permutation (columns d) (csv_header (csv_bytes p)) /\
     (forall i j, index_of DAYS_UNTIL_OUT (columns df) = Some i ->
                  index_of SUGGESTED_DATE (columns df) = Some j ->
                  (i < j)%nat ->
                  directly_follows DAYS_UNTIL_OUT SUGGESTED_DATE (columns d) = true) /\
     (has_col SUGGESTED_DATE report = false ->
      directly_follows DAYS_UNTIL_OUT SUGGESTED_DATE (columns d) = true)).
Proof.
  intros Hd H. unfold script in H. rewrite Hd in H. simpl in H.
  bind_as H view Hview. bind_as H k Hk. inversion H; subst; clear H. simpl.
  pose proof (filtered_columns _ _ _ _ _ Hview) as Hcols.
  split; [assumption|].
  split; [exact Hcols|].
  split; [reflexivity|].
  intros d. unfold detail. destruct (frame_empty view); intros E; inversion E.
  simpl. rewrite Hcols.
  split; [reflexivity|].
  split; [apply cols_perm|].
  split; [intros i j Hi Hj Hlt; eapply cols_adjacent; eauto|].
  intros Hs.
  assert (Hh : has_col DAYS_UNTIL_OUT df = true).
  { destruct (has_col DAYS_UNTIL_OUT df) eqn:Hh; [reflexivity|].
    exfalso. exact (filtered_needs_days_column _ _ _ _ _ Hh Hview). }
  destruct (add_suggested_date_appended _ _ _ _ _ Hs Hh Hd) as (i & j & Hi & Hj & Hlt).
  eapply cols_adjacent; eauto.
Qed.

End ExportProperties.

Lemma csv_export_keeps_table_order_witness :
  add_suggested_date 20000 20000 sample_report 5 = Ok sample_derived /\
  script plain_str literal_search float_sum float_mean 20000 20000 sample_report
         default_widgets None = Ok sample_page /\
  filtered plain_str literal_search sample_derived default_widgets
  = Ok (page_view sample_page) /\
  csv_header (csv_bytes sample_page) = columns sample_derived /\
  csv_records (csv_bytes sample_page) = rows (page_view sample_page) /\
  (forall d, page_detail sample_page = Some d ->
     columns d = cols (csv_header (csv_bytes sample_page)) /\
     Permutation (columns d) (csv_header (csv_bytes sample_page)) /\
     (forall i j, index_of DAYS_UNTIL_OUT (columns sample_derived) = Some i ->
                  index_of SUGGESTED_DATE (columns sample_derived) = Some j ->
                  (i < j)%nat ->
                  directly_follows DAYS_UNTIL_OUT SUGGESTED_DATE (columns d) = true) /\
     (has_col SUGGESTED_DATE sample_report = false ->
      directly_follows DAYS_UNTIL_OUT SUGGESTED_DATE (columns d) = true)).
Proof.
  split; [reflexivity|]. split; [vm_compute; reflexivity|].
  apply (csv_export_keeps_table_order plain_str literal_search float_sum float_mean
           20000 20000 sample_report default_widgets None sample_derived sample_page).
  - reflexivity.
  - vm_compute. reflexivity.
Defined.

(** ** The default state on whole numbers *)

Lemma Qmax_ge_l a b : (a <= Qmax a b)%Q.
Proof.
  unfold Qmax. destruct (Qle_bool a b) eqn:E.
  - apply Qle_bool_iff. exact E.
  - apply Qle_refl.
Qed.

Lemma Qmax_ge_r a b : (b <= Qmax a b)%Q.
Proof.
  unfold Qmax. destruct (Qle_bool a b) eqn:E.
  - apply Qle_refl.
  - destruct (Qlt_le_dec b a) as [H|H]; [apply Qlt_le_weak; exact H|].
    apply Qle_bool_iff in H. congruence.
Qed.

Lemma fold_Qmax_ge qs q0 x :
  x = q0 \/ In x qs -> (x <= fold_left Qmax qs q0)%Q.
Proof.
  revert q0 x; induction qs as [|q qs IH]; simpl; intros q0 x [->|H].
  - apply Qle_refl.
  - contradiction.
  - eapply Qle_trans; [apply (Qmax_ge_l q0 q)|]. apply IH. left; reflexivity.
  - destruct H as [->|H].
    + eapply Qle_trans; [apply (Qmax_ge_r q0 x)|]. apply IH. left; reflexivity.
    + apply IH. right; exact H.
Qed.

Lemma fold_Qmax_in qs q0 :
  fold_left Qmax qs q0 = q0 \/ In (fold_left Qmax qs q0) qs.
Proof.
  revert q0; induction qs as [|q qs IH]; simpl; intros q0; [left; reflexivity|].
  destruct (IH (Qmax q0 q)) as [E|E]; [|right; right; exact E].
  rewrite E. unfold Qmax. destruct (Qle_bool q0 q); [right; left | left]; reflexivity.
Qed.

Lemma py_int_whole q z : (q == inject_Z z)%Q -> py_int q = z.
Proof.
  unfold py_int, Qeq. destruct q as [n d]. simpl. intros H.
  rewrite Z.mul_1_r in H. rewrite H. apply Z.quot_mul. discriminate.
Qed.

Lemma numeric_values_In col qs q :
  numeric_values col = Ok qs -> In q qs -> In (Num q) col.
Proof.
  intros H Hin. apply numeric_values_ok in H. subst qs.
  unfold non_missing_numbers in Hin. apply in_flat_map in Hin.
  destruct Hin as (c & Hc & Hq). destruct c; simpl in Hq; try contradiction.
  destruct Hq as [<-|[]]. exact Hc.
Qed.

Section DefaultPage.

Variable astype_str : Cell -> string.
Variable str_contains : string -> Result (string -> bool).

(** X17. When every Days Until Out value is a whole number (and equal Item
    values have one rendering), a page built with no widget touched shows
    the whole derived table, and Total Items is its number of rows. *)
Theorem default_state_shows_table series_sum series_mean base today report df up p :
  add_suggested_date base today report 5 = Ok df ->
  script astype_str str_contains series_sum series_mean base today report default_widgets up = Ok p ->
  (forall q, In (Num q) (column_values df DAYS_UNTIL_OUT) ->
             exists z, (q == inject_Z z)%Q) ->
  (forall a b, In a (column_values df (item_col df)) ->
               In b (column_values df (item_col df)) ->
               cell_eqb (fillna_blank a) (fillna_blank b) = true ->
               astype_str (fillna_blank a) = astype_str (fillna_blank b)) ->
  page_view p = df /\
  total_items (page_kpis p) = Z.of_nat (List.length (rows df)).
Proof.
  intros Hdf H Hwhole Hitem. unfold script in H. rewrite Hdf in H. simpl in H.
  bind_as H view Hview. bind_as H k Hk. inversion H; subst p; clear H. simpl.
  assert (E : view = df).
  { pose proof Hview as Hf. unfold filtered in Hf. bind_as Hf cr Hcr.
    assert (Hdays : forall q, In (Num q) (column_values df DAYS_UNTIL_OUT) ->
                              (q <= inject_Z (days_slider cr))%Q).
    { pose proof Hcr as Hs. unfold sidebar in Hs.
      bind_as Hs cs Hcs. bind_as Hs mc Hmc. bind_as Hs its Hits.
      bind_as Hs mi Hmi. bind_as Hs ms Hms. bind_as Hs t Ht.
      bind_as Hs md Hmd. bind_as Hs dr Hdr. inversion Hs; subst cr; clear Hs.
      simpl. unfold pick_days in Ht. bind_as Ht col Hcol. bind_as Ht mx Hmx.
      unfold max_days_of in Hmx. bind_as Hmx qs Hqs.
      destruct qs as [|q0 qs]; [discriminate|]. inversion Hmx; subst mx; clear Hmx.
      unfold slider in Ht. simpl in Ht. inversion Ht; subst t; clear Ht.
      rewrite (get_col_values _ _ _ Hcol) in *.
      set (mx := fold_left Qmax qs q0).
      assert (Hin : In (Num mx) col).
      { apply (numeric_values_In _ _ _ Hqs).
        destruct (fold_Qmax_in qs q0) as [Em|Em]; [left; symmetry; exact Em | right; exact Em]. }
      destruct (Hwhole _ Hin) as (z & Ez).
      rewrite (py_int_whole _ _ Ez). intros q Hq. rewrite <- Ez.
      apply fold_Qmax_ge.
      assert (Hq' : In q (q0 :: qs)).
      { apply numeric_values_ok in Hqs. rewrite Hqs.
        unfold non_missing_numbers. apply in_flat_map.
        exists (Num q). split; [exact Hq | left; reflexivity]. }
      destruct Hq' as [->|Hq']; auto. }
    pose proof (default_view_is_table _ str_contains _ _ Hcr Hdays Hitem) as Hfull.
    rewrite Hfull in Hview. inversion Hview; reflexivity. }
  split; [exact E|]. subst view.
  apply (kpis_counts _ _ _ _ (view_has_columns _ _ _ _ _ Hview) Hk).
Qed.

(** ** Inputs that do not reach the view *)

Lemma mask_date_not_list df dr :
  is_two_date_list dr = false -> mask_date df dr = Ok MTrue.
Proof.
  unfold mask_date, is_two_date_list. intros H.
  destruct (has_col LAST_DUE df); [|reflexivity].
  destruct dr as [[[|a [|b [|? ?]]]| |]|]; try reflexivity. discriminate.
Qed.

Lemma apply_criteria_date_inert df cs its st t dr1 dr2 q :
  is_two_date_list dr1 = false ->
  is_two_date_list dr2 = false ->
  apply_criteria astype_str str_contains df (mkCriteria cs its st t dr1 q)
  = apply_criteria astype_str str_contains df (mkCriteria cs its st t dr2 q).
Proof.
  intros H1 H2. unfold apply_criteria. simpl.
  rewrite (mask_date_not_list _ _ H1), (mask_date_not_list _ _ H2). reflexivity.
Qed.

(** The value of the date input as [pick_dates] passes it on. *)
Lemma pick_dates_cases df w :
  (exists e, forall d, pick_dates df (with_date w d) = Raise e)
  \/ (forall d, exists dr, pick_dates df (with_date w d) = Ok dr /\
                  (is_two_date_list d = false -> is_two_date_list dr = false)).
Proof.
  unfold pick_dates. destruct (has_col LAST_DUE df).
  - destruct (get_col df LAST_DUE) as [col|e]; simpl; [|left; eauto].
    destruct (date_values col) as [[|d0 ds]|e]; simpl; try (left; eauto; fail).
    right. intros [v|]; simpl; eexists; (split; [reflexivity|]); auto.
  - right. intros d. eexists; split; [reflexivity | reflexivity].
Qed.

(** X18. A date range takes part in the filtering only when it reaches line
    91 as a list of two dates.  In any other shape (a tuple, a single date,
    an untouched input) it is ignored: two widget states that differ in such
    a date input give the same view, or the same error. *)
Theorem date_input_other_than_list_is_ignored df w d1 d2 :
  is_two_date_list d1 = false ->
  is_two_date_list d2 = false ->
  filtered astype_str str_contains df (with_date w d1)
  = filtered astype_str str_contains df (with_date w d2).
Proof.
  intros H1 H2. unfold filtered, sidebar.
  change (pick_customers df (with_date w d1)) with (pick_customers df w).
  change (pick_customers df (with_date w d2)) with (pick_customers df w).
  destruct (pick_customers df w) as [cs|e]; simpl; [|reflexivity].
  destruct (mask_customer df cs) as [mc|e]; simpl; [|reflexivity].
  change (pick_items astype_str df mc (with_date w d1))
    with (pick_items astype_str df mc w).
  change (pick_items astype_str df mc (with_date w d2))
    with (pick_items astype_str df mc w).
  destruct (pick_items astype_str df mc w) as [its|e]; simpl; [|reflexivity].
  destruct (mask_item astype_str df its) as [mi|e]; simpl; [|reflexivity].
  destruct (mask_status df (status_radio w)) as [ms|e]; simpl; [|reflexivity].
  change (pick_days df (with_date w d1)) with (pick_days df w).
  change (pick_days df (with_date w d2)) with (pick_days df w).
  destruct (pick_days df w) as [t|e]; simpl; [|reflexivity].
  destruct (mask_days df t) as [md|e]; simpl; [|reflexivity].
  destruct (pick_dates_cases df w) as [(e & He)|Hok].
  - rewrite !He. reflexivity.
  - destruct (Hok d1) as (dr1 & -> & Hd1). destruct (Hok d2) as (dr2 & -> & Hd2).
    simpl. apply apply_criteria_date_inert; auto.
Qed.

(** X19. Select-all overrides an explicit selection: while a select-all box
    is checked, what the matching multiselect holds has no effect on the
    view (or on the error raised). *)
Theorem select_all_overrides_selection df w c1 c2 i1 i2 :
  sel_all_cust w = true \/ c1 = c2 ->
  sel_all_items w = true \/ i1 = i2 ->
  filtered astype_str str_contains df (with_picks w c1 i1)
  = filtered astype_str str_contains df (with_picks w c2 i2).
Proof.
  intros Hc Hi. unfold filtered, sidebar.
  assert (Ec : pick_customers df (with_picks w c1 i1)
               = pick_customers df (with_picks w c2 i2)).
  { unfold pick_customers. simpl.
    destruct Hc as [-> | ->]; reflexivity. }
  rewrite Ec.
  destruct (pick_customers df (with_picks w c2 i2)) as [cs|e]; simpl; [|reflexivity].
  destruct (mask_customer df cs) as [mc|e]; simpl; [|reflexivity].
  assert (Ei : pick_items astype_str df mc (with_picks w c1 i1)
               = pick_items astype_str df mc (with_picks w c2 i2)).
  { unfold pick_items. simpl.
    destruct Hi as [-> | ->]; reflexivity. }
  rewrite Ei. reflexivity.
Qed.

End DefaultPage.

(** ** Monthly trend *)

Lemma add_to_group_total m hit g :
  total_count (add_to_group m hit g) = total_count g + b2z hit.
Proof.
  induction g as [|[m' n] g IH]; simpl; [lia|].
  destruct (m <? m'); [simpl; lia|].
  destruct (m =? m'); simpl; [lia|]. rewrite IH. lia.
Qed.

Lemma add_to_group_keys m hit g k :
  In k (map fst (add_to_group m hit g)) <-> k = m \/ In k (map fst g).
Proof.
  induction g as [|[m' n] g IH]; simpl.
  - intuition.
  - destruct (m <? m'); simpl; [intuition|].
    destruct (Z.eqb_spec m m') as [->|Hne]; simpl; [intuition|].
    rewrite IH. intuition.
Qed.

Lemma add_to_group_hd m hit g m0 :
  m0 < m -> HdRel Z.lt m0 (map fst g) ->
  HdRel Z.lt m0 (map fst (add_to_group m hit g)).
Proof.
  intros Hlt Hhd. destruct g as [|[m' n] g]; simpl.
  - constructor. exact Hlt.
  - inversion Hhd; subst.
    destruct (m <? m'); [constructor; exact Hlt|].
    destruct (m =? m'); constructor; assumption.
Qed.

Lemma add_to_group_sorted m hit g :
  Sorted Z.lt (map fst g) -> Sorted Z.lt (map fst (add_to_group m hit g)).
Proof.
  induction g as [|[m' n] g IH]; simpl; intros HS.
  - repeat constructor.
  - inversion HS; subst.
    destruct (Z.ltb_spec m m') as [Hlt|Hge].
    + simpl. constructor; [exact HS | constructor; exact Hlt].
    + destruct (Z.eqb_spec m m') as [->|Hne]; simpl.
      * exact HS.
      * constructor; [apply IH; assumption|].
        apply add_to_group_hd; [lia | assumption].
Qed.

Section TrendProperties.

Variable month_of : Z -> Z.

Lemma group_counts_total {A : Type} (fD fS : A -> Cell) (l : list A) :
  total_count (group_counts month_of (map fD l) (map fS l))
  = Z.of_nat (List.length
      (filter (fun r => is_date (fD r) && cell_eqb (fS r) (Str REORDER_SOON)) l)).
Proof.
  induction l as [|r l IH]; simpl; [reflexivity|].
  destruct (fD r); simpl; try exact IH.
  rewrite add_to_group_total, IH.
  destruct (cell_eqb (fS r) (Str REORDER_SOON)); simpl; lia.
Qed.

Lemma group_counts_keys {A : Type} (fD fS : A -> Cell) (l : list A) k :
  In k (map fst (group_counts month_of (map fD l) (map fS l)))
  <-> exists r d, In r l /\ fD r = Date d /\ month_of d = k.
Proof.
  induction l as [|r l IH]; simpl.
  - split; [contradiction | intros (r & d & [] & _)].
  - destruct (fD r) as [| q | s | d0] eqn:E;
      try (rewrite IH; split;
           [ intros (r' & d & Hin & Hd & Hm); exists r', d; auto
           | intros (r' & d & [<-|Hin] & Hd & Hm);
             [congruence | exists r', d; auto] ]).
    rewrite add_to_group_keys, IH. split.
    + intros [->|(r' & d & Hin & Hd & Hm)].
      * exists r, d0. auto.
      * exists r', d. auto.
    + intros (r' & d & [<-|Hin] & Hd & Hm).
      * left. congruence.
      * right. exists r', d. auto.
Qed.

Lemma group_counts_sorted {A : Type} (fD fS : A -> Cell) (l : list A) :
  Sorted Z.lt (map fst (group_counts month_of (map fD l) (map fS l))).
Proof.
  induction l as [|r l IH]; simpl; [constructor|].
  destruct (fD r); simpl; try exact IH.
  apply add_to_group_sorted. exact IH.
Qed.

(** X20. The monthly trend, when a chart is drawn: it has one point per
    month in which some row of the view has its Last Due, the months in
    strictly ascending order, and the counts of the points add up to the
    number of rows that have a Last Due date and the status Reorder Soon;
    rows without a Last Due are counted in no month. *)
Theorem trend_counts_by_month f g :
  trend month_of f = Ok (Some g) ->
  Sorted Z.lt (map fst g) /\
  (forall m, In m (map fst g) <->
     exists r d, In r (rows f) /\
                 at_label (columns f) LAST_DUE r = Date d /\ month_of d = m) /\
  total_count g
  = Z.of_nat (List.length
      (filter (fun r => is_date (at_label (columns f) LAST_DUE r)
                        && status_is (columns f) REORDER_SOON r) (rows f))).
Proof.
  unfold trend. destruct (frame_empty f); [discriminate|].
  destruct (has_col LAST_DUE f); simpl; [|discriminate].
  intros H. bind_as H due Hdue.
  destruct (forallb is_na due); [discriminate|].
  destruct (is_datetime_col due); simpl in H; [|discriminate].
  bind_as H status Hstatus.
  rewrite (get_col_at_label _ _ _ Hdue), (get_col_at_label _ _ _ Hstatus) in H.
  destruct (group_counts month_of _ _) as [|p g0] eqn:Eg; inversion H; subst g; clear H.
  rewrite <- Eg. split; [apply group_counts_sorted|]. split.
  - intros m. apply group_counts_keys.
  - rewrite group_counts_total. do 2 f_equal. apply filter_ext. intros r.
    rewrite status_is_at_label. reflexivity.
Qed.

End TrendProperties.

(** ** Instances of the further properties *)

Lemma add_suggested_date_frame_witness :
  wf_frame sample_report /\
  add_suggested_date 20000 20000 sample_report 5 = Ok sample_derived /\
  wf_frame sample_derived /\
  List.length (rows sample_derived) = List.length (rows sample_report) /\
  (columns sample_derived = columns sample_report
   \/ columns sample_derived = columns sample_report ++ [SUGGESTED_DATE]) /\
  forall name i, name <> SUGGESTED_DATE ->
                 cell sample_derived name i = cell sample_report name i.
Proof.
  split; [exact sample_report_wf|]. split; [reflexivity|].
  apply (add_suggested_date_frame 20000 20000 sample_report 5 sample_derived).
  - exact sample_report_wf.
  - reflexivity.
Defined.

Lemma suggested_date_clipped_witness :
  cell sample_report DAYS_UNTIL_OUT 0 = Some (Num (2 # 1)) /\
  rounded_or_zero (Num (2 # 1)) <= 5 /\
  cell sample_derived SUGGESTED_DATE 0 = Some (Date 20000).
Proof.
  split; [reflexivity|]. split; [vm_compute; discriminate|].
  apply (suggested_date_clipped 20000 sample_report 5 sample_derived 0 (Num (2 # 1))).
  - exact sample_report_wf.
  - reflexivity.
  - reflexivity.
  - vm_compute. discriminate.
Defined.

Lemma larger_buffer_never_later_witness :
  cell sample_derived SUGGESTED_DATE 1 = Some (Date 20025) /\ 20020 <= 20025.
Proof.
  split; [reflexivity|].
  eapply (larger_buffer_never_later 20000 20000 sample_report 5 10 sample_derived _ 1).
  - exact sample_report_wf.
  - lia.
  - reflexivity.
  - lazy. reflexivity.
  - reflexivity.
  - reflexivity.
Defined.

Lemma add_suggested_date_idempotent_witness :
  add_suggested_date 20000 20000 sample_report 5 = Ok sample_derived /\
  add_suggested_date 20000 20000 sample_derived 5 = Ok sample_derived.
Proof.
  split; [reflexivity|].
  apply (add_suggested_date_idempotent 20000 20000 sample_report 5 sample_derived).
  - exact sample_report_wf.
  - reflexivity.
Defined.

Lemma view_is_row_filter_witness :
  filtered plain_str literal_search sample_derived (status_widgets "Reorder Soon")
  = Ok (take_rows [true; false] sample_derived) /\
  exists cr,
    sidebar plain_str sample_derived (status_widgets "Reorder Soon") = Ok cr /\
    columns (take_rows [true; false] sample_derived) = columns sample_derived /\
    rows (take_rows [true; false] sample_derived)
    = filter (row_passes plain_str (columns sample_derived) cr) (rows sample_derived) /\
    forall r, In r (rows (take_rows [true; false] sample_derived)) <->
              In r (rows sample_derived)
              /\ row_passes plain_str (columns sample_derived) cr r = true.
Proof.
  split; [reflexivity|].
  apply (view_is_row_filter plain_str literal_search sample_derived
           (status_widgets "Reorder Soon")).
  - reflexivity.
  - reflexivity.
Defined.

Lemma empty_selection_empties_view_witness :
  filtered plain_str literal_search sample_derived no_customer_widgets
  = Ok (take_rows [false; false] sample_derived) /\
  rows (take_rows [false; false] sample_derived) = [] /\
  kpis float_sum float_mean (take_rows [false; false] sample_derived)
  = Ok (mkKpis 0 0 0 0).
Proof.
  split; [reflexivity|].
  apply (empty_selection_empties_view plain_str literal_search float_sum float_mean
           sample_derived no_customer_widgets).
  - reflexivity.
  - left. split; reflexivity.
  - reflexivity.
Defined.

Lemma status_filter_fixes_status_witness :
  (forall r, In r (rows (take_rows [true; false] sample_derived)) ->
             at_label (columns (take_rows [true; false] sample_derived)) STATUS r
             = Str "Reorder Soon") /\
  (forall k, kpis float_sum float_mean (take_rows [true; false] sample_derived) = Ok k ->
             need_reorder k = total_items k).
Proof.
  apply (status_filter_fixes_status plain_str literal_search float_sum float_mean
           sample_derived (status_widgets "Reorder Soon")).
  - reflexivity.
  - discriminate.
  - discriminate.
  - reflexivity.
Defined.

Lemma lower_slider_filters_higher_view_witness :
  apply_criteria plain_str literal_search sample_derived (with_slider all_criteria 10)
  = Ok (take_rows [true; false] sample_derived) /\
  apply_criteria plain_str literal_search sample_derived (with_slider all_criteria 30)
  = Ok sample_derived /\
  rows (take_rows [true; false] sample_derived)
  = filter (fun r => passes_days 10 (at_label (columns sample_derived) DAYS_UNTIL_OUT r))
           (rows sample_derived).
Proof.
  split; [reflexivity|]. split; [reflexivity|].
  refine (proj1 (lower_slider_filters_higher_view plain_str literal_search
                   sample_derived all_criteria 10 30 _ _ _ _ _ _)).
  - reflexivity.
  - lia.
  - reflexivity.
  - reflexivity.
Defined.

Lemma successive_filters_commute_witness :
  exists g,
    apply_criteria plain_str literal_search
      (take_rows [true; false] sample_derived) (with_slider all_criteria 10) = Ok g /\
    apply_criteria plain_str literal_search
      (take_rows [true; false] sample_derived) status_criteria = Ok g /\
    columns g = columns sample_derived /\
    rows g = filter (fun r => row_passes plain_str (columns sample_derived) status_criteria r
                              && row_passes plain_str (columns sample_derived)
                                   (with_slider all_criteria 10) r)
                    (rows sample_derived).
Proof.
  apply (successive_filters_commute plain_str literal_search sample_derived
           status_criteria (with_slider all_criteria 10)).
  - reflexivity.
  - reflexivity.
  - reflexivity.
  - reflexivity.
Defined.

Lemma view_keeps_shape_witness :
  filtered plain_str literal_search sample_derived (status_widgets "Reorder Soon")
  = Ok (take_rows [true; false] sample_derived) /\
  columns (take_rows [true; false] sample_derived) = columns sample_derived /\
  (List.length (rows (take_rows [true; false] sample_derived))
   <= List.length (rows sample_derived))%nat /\
  (wf_frame sample_derived -> wf_frame (take_rows [true; false] sample_derived)).
Proof.
  split; [reflexivity|].
  apply (view_keeps_shape plain_str literal_search sample_derived
           (status_widgets "Reorder Soon")).
  reflexivity.
Defined.

Lemma need_reorder_within_total_witness :
  kpis float_sum float_mean sample_derived = Ok (mkKpis 2 1 16 15) /\
  0 <= need_reorder (mkKpis 2 1 16 15) <= total_items (mkKpis 2 1 16 15).
Proof.
  split; [vm_compute; reflexivity|].
  apply (need_reorder_within_total float_sum float_mean sample_derived).
  vm_compute. reflexivity.
Defined.

Lemma cols_rearranges_and_places_witness :
  Permutation (cols (columns sample_derived)) (columns sample_derived) /\
  directly_follows DAYS_UNTIL_OUT SUGGESTED_DATE (cols (columns sample_derived)) = true.
Proof.
  apply (cols_rearranges_and_places (columns sample_derived) 3 5).
  - reflexivity.
  - reflexivity.
  - lia.
Defined.

Lemma detail_shows_view_cells_witness :
  detail sample_derived
  = Some (reindex sample_derived (cols (columns sample_derived))) /\
  List.length (rows (reindex sample_derived (cols (columns sample_derived))))
  = List.length (rows sample_derived).
Proof.
  split; [reflexivity|].
  refine (proj1 (detail_shows_view_cells sample_derived _ _)). reflexivity.
Defined.

Lemma highlighted_rows_match_need_reorder_witness :
  exists styles,
    styled (reindex sample_derived (cols (columns sample_derived))) = Ok styles /\
    List.length styles = List.length (rows sample_derived) /\
    count_if is_highlighted styles = need_reorder (mkKpis 2 1 16 15).
Proof.
  apply (highlighted_rows_match_need_reorder float_sum float_mean sample_derived).
  - reflexivity.
  - vm_compute. reflexivity.
Defined.

Lemma page_needs_columns_witness :
  script plain_str literal_search float_sum float_mean 20000 20000 sample_report default_widgets None
  = Ok sample_page /\
  has_col CUSTOMER sample_report = true /\
  (has_col "Item" sample_report = true \/ has_col "Item #" sample_report = true) /\
  has_col DAYS_UNTIL_OUT sample_report = true /\
  (rows (page_view sample_page) <> [] ->
   has_col STATUS sample_report = true /\ has_col SUGGESTED_QTY sample_report = true).
Proof.
  split; [vm_compute; reflexivity|].
  apply (page_needs_columns plain_str literal_search float_sum float_mean
           20000 20000 sample_report default_widgets None sample_page).
  vm_compute. reflexivity.
Defined.

Lemma customer_choices_are_table_values_witness :
  pick_customers sample_derived default_widgets = Ok [Str "A"; Str "B"] /\
  (forall c, In c [Str "A"; Str "B"] -> isin (fillna_blank c) [Str "A"; Str "B"] = true) /\
  (forall x, In x [Str "A"; Str "B"] ->
             exists c, In c [Str "A"; Str "B"] /\ x = fillna_blank c) /\
  ~ In NA [Str "A"; Str "B"].
Proof.
  split; [reflexivity|].
  apply (customer_choices_are_table_values sample_derived default_widgets
           [Str "A"; Str "B"] [Str "A"; Str "B"]).
  - reflexivity.
  - reflexivity.
  - reflexivity.
Defined.

Lemma default_state_shows_table_witness :
  page_view sample_page = sample_derived /\
  total_items (page_kpis sample_page) = Z.of_nat (List.length (rows sample_derived)).
Proof.
  apply (default_state_shows_table plain_str literal_search float_sum float_mean
           20000 20000 sample_report sample_derived None sample_page).
  - reflexivity.
  - vm_compute. reflexivity.
  - simpl. intros q [H|[H|[]]]; inversion H; subst.
    + exists 2. reflexivity.
    + exists 30. reflexivity.
  - simpl. intros a b [<-|[<-|[]]] [<-|[<-|[]]]; simpl; try discriminate; reflexivity.
Defined.

Lemma date_input_other_than_list_is_ignored_witness :
  filtered plain_str literal_search dated_view (with_date default_widgets None)
  = filtered plain_str literal_search dated_view
      (with_date default_widgets (Some (AsTuple [20000; 20010]))).
Proof.
  apply (date_input_other_than_list_is_ignored plain_str literal_search dated_view
           default_widgets None (Some (AsTuple [20000; 20010]))).
  - reflexivity.
  - reflexivity.
Defined.

Lemma select_all_overrides_selection_witness :
  filtered plain_str literal_search sample_derived (with_picks default_widgets [] [])
  = filtered plain_str literal_search sample_derived
      (with_picks default_widgets [Str "A"] ["X1"]).
Proof.
  apply (select_all_overrides_selection plain_str literal_search sample_derived
           default_widgets [] [Str "A"] [] ["X1"]).
  - left. reflexivity.
  - left. reflexivity.
Defined.

Lemma trend_counts_by_month_witness :
  trend thirty_day_period dated_view = Ok (Some [(666, 1); (667, 1)]) /\
  total_count [(666, 1); (667, 1)]
  = Z.of_nat (List.length
      (filter (fun r => is_date (at_label (columns dated_view) LAST_DUE r)
                        && status_is (columns dated_view) REORDER_SOON r)
              (rows dated_view))).
Proof.
  split; [reflexivity|].
  refine (proj2 (proj2 (trend_counts_by_month thirty_day_period dated_view
                          [(666, 1); (667, 1)] _))).
  reflexivity.
Defined.
